(** * The scrape-to-row pipeline of [nlp_pipeline.py]

    A shallow embedding of [ProductScraper], [SentimentAnalyzer],
    [FeatureMentionDetector], [generate_csv_from_url] and
    [generate_csv_for_products], followed by the properties the
    specification states about them.

    Conventions of the model.
    - A Python [str] is a [string]; a character is read as the code point
      of the same number, so the alphabet is U+0000..U+00FF.  Case folding,
      whitespace and digits are Python's, restricted to that range (the
      rupee sign of the price pattern lies outside it).
    - A Python [float] is the rational it denotes ([Q]); rounding to
      binary64, infinities and NaN are outside the model.
    - [None] is the [None] of [option]; a text argument that may be missing
      is an [option string].
    - Calls to [print] are dropped. *)

From Stdlib Require Import ZArith QArith Qround Qabs Lqa Ascii String DecimalString DecimalNat.
From stdpp Require Import gmap strings list.

(** ** Python string primitives *)

Module Py.

(** [str.isspace] for one character: the white space of [str.split()] and
    of the pattern class [\s]. *)
Definition is_space (c : ascii) : bool :=
  let n := nat_of_ascii c in
  ((9 <=? n) && (n <=? 13)) || ((28 <=? n) && (n <=? 32))
  || (n =? 133) || (n =? 160).

(** The pattern class [\d]. *)
Definition is_digit (c : ascii) : bool :=
  let n := nat_of_ascii c in (48 <=? n) && (n <=? 57).

Definition lower_char (c : ascii) : ascii :=
  let n := nat_of_ascii c in
  if ((65 <=? n) && (n <=? 90))
     || ((192 <=? n) && (n <=? 222) && negb (n =? 215))
  then ascii_of_nat (n + 32) else c.

(** [s.lower()] *)
Fixpoint lower (s : string) : string :=
  match s with
  | EmptyString => EmptyString
  | String c s' => String (lower_char c) (lower s')
  end.

Fixpoint starts_with (p s : string) : bool :=
  match p, s with
  | EmptyString, _ => true
  | String _ _, EmptyString => false
  | String a p', String b s' => if Ascii.eqb a b then starts_with p' s' else false
  end.

(** [sub in s] *)
Fixpoint contains (sub s : string) : bool :=
  starts_with sub s
  || match s with
     | EmptyString => false
     | String _ s' => contains sub s'
     end.

(** [s[:n]] *)
Fixpoint take (n : nat) (s : string) : string :=
  match n, s with
  | S n', String c s' => String c (take n' s')
  | _, _ => EmptyString
  end.

(** [bool(s)]: a string is truthy when it is not empty. *)
Definition truthy (s : string) : bool :=
  match s with EmptyString => false | String _ _ => true end.

(** [s.split()]: the maximal runs of characters that are not white space.
    [cur] is the run being read. *)
Fixpoint split_from (cur s : string) : list string :=
  match s with
  | EmptyString => if truthy cur then [cur] else []
  | String c s' =>
      if is_space c
      then (if truthy cur then cur :: split_from EmptyString s'
            else split_from EmptyString s')
      else split_from (cur +:+ String c EmptyString) s'
  end.

Definition split (s : string) : list string := split_from EmptyString s.

(** [sep.join(l)] *)
Definition join (sep : string) (l : list string) : string := String.concat sep l.

Fixpoint lstrip (s : string) : string :=
  match s with
  | String c s' => if is_space c then lstrip s' else s
  | EmptyString => EmptyString
  end.

Fixpoint rev_string (acc s : string) : string :=
  match s with
  | EmptyString => acc
  | String c s' => rev_string (String c acc) s'
  end.

(** [s.strip()] *)
Definition strip (s : string) : string :=
  rev_string EmptyString (lstrip (rev_string EmptyString (lstrip s))).

(** [re.sub(r'[...]', '', s)] for a character class given as a predicate. *)
Fixpoint remove_class (cls : ascii -> bool) (s : string) : string :=
  match s with
  | EmptyString => EmptyString
  | String c s' =>
      if cls c then remove_class cls s' else String c (remove_class cls s')
  end.

(** The longest prefix of digits, and what follows it. *)
Fixpoint span_digits (s : string) : string * string :=
  match s with
  | String c s' =>
      if is_digit c
      then let (d, r) := span_digits s' in (String c d, r)
      else (EmptyString, s)
  | EmptyString => (EmptyString, EmptyString)
  end.

(** What [\d+\.?\d*] matches at the start of [s], which starts with a
    digit: all the digits, then a dot if there is one, then all the digits
    after it.  The pattern is greedy and never has to backtrack. *)
Definition number_here (s : string) : string :=
  let (d, r) := span_digits s in
  match r with
  | String "."%char r' => let (f, _) := span_digits r' in d +:+ String "."%char f
  | _ => d
  end.

(** [re.search] for the number pattern, as [match.group(1)]: the leftmost
    match starts at the first digit. *)
Fixpoint search_number (s : string) : option string :=
  match s with
  | EmptyString => None
  | String c s' => if is_digit c then Some (number_here s) else search_number s'
  end.

Definition digit_val (c : ascii) : Z := Z.of_nat (nat_of_ascii c - 48).

(** The value of a string of digits, read after the digits [acc]. *)
Fixpoint digits_val (acc : Z) (s : string) : Z :=
  match s with
  | EmptyString => acc
  | String c s' => digits_val (10 * acc + digit_val c) s'
  end.

(** [float(tok)] for a token [tok] of the shape [\d+\.?\d*]: the decimal
    it spells. *)
Definition float_of_token (tok : string) : Q :=
  let (d, r) := span_digits tok in
  match r with
  | String "."%char f =>
      Qmake (digits_val (digits_val 0 d) f) (Pos.pow 10 (Pos.of_nat (String.length f)))
  | _ => inject_Z (digits_val 0 d)
  end.

End Py.

(** ** Python numbers *)

(** [a < b] on floats. *)
Definition Qlt_bool (a b : Q) : bool := negb (Qle_bool b a).

(** [int(x)] for a float [x]: truncation towards zero. *)
Definition py_int (x : Q) : Z := Z.quot (Qnum x) (Zpos (Qden x)).

(** [round(x, nd)]: to the nearest multiple of [10^-nd], a tie going to
    the even one. *)
Definition py_round (x : Q) (nd : nat) : Q :=
  let s := inject_Z (10 ^ Z.of_nat nd) in
  let y := (x * s)%Q in
  let f := Qfloor y in
  let r := (y - inject_Z f)%Q in
  let n := if Qlt_bool r 0.5 then f
           else if Qlt_bool 0.5 r then (f + 1)%Z
           else if Z.even f then f else (f + 1)%Z in
  (inject_Z n / s)%Q.

(** [str(n)] for a natural number. *)
Definition str_nat (n : nat) : string := NilEmpty.string_of_uint (Nat.to_uint n).

Fixpoint zeros (k : nat) : string :=
  match k with O => "" | S k' => String "0"%char (zeros k') end.

(** The format [{n:0wd}]: at least [w] digits, zeros to the left. *)
Definition fmt_0d (w n : nat) : string :=
  let s := str_nat n in zeros (w - String.length s) +:+ s.

(** ** The parsed page

    The code reads a page through two methods of BeautifulSoup, on the
    document and on the elements it finds: [select] (all the matches of a
    CSS selector, in document order) and [get_text].  [select_one] is the
    first element of [select].  An element found is always truthy.  None
    of the three raises on the constant selectors of the code, so the
    [try] blocks around them have only their normal path. *)

Class Soup (tag : Type) := {
  select : string -> tag -> list tag;
  get_text : tag -> string
}.

Definition select_one {tag : Type} `{Soup tag} (sel : string) (t : tag) : option tag :=
  head (select sel t).

(** A loop [for x in l] whose body either returns a value or goes on to
    the next element. *)
Fixpoint for_return {A B : Type} (body : A -> option B) (l : list A) : option B :=
  match l with
  | [] => None
  | x :: l' =>
      match body x with
      | Some b => Some b
      | None => for_return body l'
      end
  end.

(** The double quote, for the attribute selectors. *)
Definition dq : string := String (ascii_of_nat 34) EmptyString.

Definition attr_selector (name value : string) : string :=
  "[" +:+ name +:+ "=" +:+ dq +:+ value +:+ dq +:+ "]".

(** The dictionary [scrape_product] returns. *)
Record ProductData := {
  product_name : string;
  price : Q;
  reviews : list string;
  ratings : list Q
}.

(** ** ProductScraper *)

Section ProductScraper.

Context {tag : Type} `{Soup tag}.

Definition _clean_text (text : string) : string :=
  if negb (Py.truthy text) then ""
  else Py.strip (Py.join " " (Py.split text)).

Definition name_selectors : list string :=
  ["#productTitle"; "h1#title"; "span#productTitle"].

Definition _extract_product_name (soup : tag) : string :=
  default "Unknown Product"
    (for_return
       (fun selector =>
          match select_one selector soup with
          | Some elem =>
              let text := _clean_text (get_text elem) in
              if Py.truthy text && (5 <? String.length text) then Some text
              else None
          | None => None
          end)
       name_selectors).

Definition price_selectors : list string :=
  ["span.a-price-whole"; "span.a-price span.a-offscreen"; "#priceblock_ourprice"].

(** The class of the substitution in [_extract_price]: dollar sign, comma
    and white space. *)
Definition price_noise (c : ascii) : bool :=
  Ascii.eqb c "$" || Ascii.eqb c "," || Py.is_space c.

(** The body of the inner loop of [_extract_price]. *)
Definition price_of_elem (elem : tag) : option Q :=
  let text := get_text elem in
  let text := Py.remove_class price_noise text in
  match Py.search_number text with
  | Some tok =>
      let price := Py.float_of_token tok in
      if Qlt_bool 100 price && Qlt_bool price 1000000 then Some price else None
  | None => None
  end.

Definition _extract_price (soup : tag) : Q :=
  default 0.0%Q
    (for_return (fun selector => for_return price_of_elem (select selector soup))
       price_selectors).

Definition review_containers : list string :=
  [attr_selector "data-hook" "review"; ".review"; ".a-section.review"].

Definition text_selectors : list string :=
  [attr_selector "data-hook" "review-body"; ".review-text"].

(** The text of a review container: the first sub-selector that finds an
    element decides, whatever its text. *)
Definition review_text_of (review_elem : tag) : option string :=
  for_return
    (fun text_sel =>
       match select_one text_sel review_elem with
       | Some text_elem => Some (_clean_text (get_text text_elem))
       | None => None
       end)
    text_selectors.

Definition rating_of (review_elem : tag) : Q :=
  match select_one (attr_selector "data-hook" "review-star-rating") review_elem with
  | Some rating_elem =>
      match Py.search_number (get_text rating_elem) with
      | Some tok => Py.float_of_token tok
      | None => 3.0%Q
      end
  | None => 3.0%Q
  end.

(** The body of the loop over the containers a selector finds: [None] is
    [continue], [Some] is the pair appended to [reviews] and [ratings]. *)
Definition review_of_elem (review_elem : tag) : option (string * Q) :=
  match review_text_of review_elem with
  | None => None
  | Some review_text =>
      if negb (Py.truthy review_text) || (String.length review_text <? 20)
      then None
      else Some (review_text, rating_of review_elem)
  end.

Definition visit_review (acc : list string * list Q) (review_elem : tag)
  : list string * list Q :=
  match review_of_elem review_elem with
  | Some (review_text, rating) => (acc.1 ++ [review_text], acc.2 ++ [rating])
  | None => acc
  end.

(** The loop over the container selectors, with its [break]. *)
Fixpoint visit_containers (sels : list string) (soup : tag)
    (acc : list string * list Q) : list string * list Q :=
  match sels with
  | [] => acc
  | container_selector :: sels' =>
      let acc' := fold_left visit_review (select container_selector soup) acc in
      match acc'.1 with
      | _ :: _ => acc'
      | [] => visit_containers sels' soup acc'
      end
  end.

Definition _extract_reviews_and_ratings (soup : tag) : list string * list Q :=
  visit_containers review_containers soup ([], []).

(** What [self.scraper.get(url, timeout=20)] does: it raises, or it gives
    a response, of which the code reads the status and parses the body. *)
Inductive response : Type :=
  | RequestError
  | Reply (status_code : Z) (soup : tag).

Definition blocked (soup : tag) : bool :=
  let page_text := Py.lower (get_text soup) in
  Py.contains "captcha" page_text || Py.contains "robot" (Py.take 500 page_text).

Definition scrape_product (get : string -> response) (url : string)
  : option ProductData :=
  match get url with
  | RequestError => None
  | Reply status_code soup =>
      if negb (status_code =? 200)%Z then None
      else if blocked soup then None
      else
        let product_name := _extract_product_name soup in
        let price := _extract_price soup in
        let '(reviews, ratings) := _extract_reviews_and_ratings soup in
        match reviews with
        | _ :: _ =>
            Some {| product_name := product_name; price := price;
                    reviews := reviews; ratings := ratings |}
        | [] => None
        end
  end.

End ProductScraper.

Arguments response : clear implicits.

(** ** SentimentAnalyzer *)

(** The dictionary of [SentimentIntensityAnalyzer.polarity_scores]. *)
Record Scores := { neg : Q; neu : Q; pos : Q; compound : Q }.

(** The VADER model is a library: the code only calls [polarity_scores]. *)
Class Vader := { polarity_scores : string -> Scores }.

Inductive Sentiment : Type := Positive | Negative | Neutral.

(** The dictionary [predict] returns. *)
Record Prediction := {
  sentiment : Sentiment;
  compound_score : Q;
  pos_score : Q;
  neg_score : Q;
  neu_score : Q
}.

Section SentimentAnalyzer.

Context `{Vader}.

Definition predict (text : option string) : Prediction :=
  match text with
  | None | Some EmptyString =>
      {| sentiment := Neutral; compound_score := 0.0; pos_score := 0.0;
         neg_score := 0.0; neu_score := 1.0 |}
  | Some text =>
      let scores := polarity_scores text in
      let compound_score := compound scores in
      let sentiment_label :=
        if Qle_bool 0.05 compound_score then Positive
        else if Qle_bool compound_score (-0.05) then Negative
        else Neutral in
      {| sentiment := sentiment_label; compound_score := compound_score;
         pos_score := pos scores; neg_score := neg scores;
         neu_score := neu scores |}
  end.

End SentimentAnalyzer.

(** ** FeatureMentionDetector *)

Definition keywords : gmap string (list string) :=
  <["delivery" := ["delivery"; "shipping"; "packaging"; "arrival"; "dispatch"]]>
  (<["quality" := ["quality"; "durable"; "sturdy"; "defect"; "material"]]>
  (<["value" := ["value"; "worth"; "expensive"; "cheap"; "money"]]> ∅)).

Definition detect_feature (text : option string) (feature : string) : Z :=
  match text with
  | None | Some EmptyString => 0
  | Some text =>
      let text_lower := Py.lower text in
      let keywords := default [] (keywords !! feature) in
      if existsb (fun kw => Py.contains kw text_lower) keywords then 1 else 0
  end.

(** ** The table written by a run *)

Module Csv.

(** One row of the table, its fields in the column order of the file. *)
Record Row := {
  review_id : string;
  product_id : string;
  product_name : string;
  review_text : string;
  rating : Z;
  review_date : string;
  reviewer_name : string;
  verified_purchase : Z;
  helpful_votes : Z;
  total_votes : Z;
  sentiment_label : Sentiment;
  compound_score : Q;
  positive_score : Q;
  negative_score : Q;
  neutral_score : Q;
  product_price : Q;
  original_price : Q;
  discount_percentage : Z;
  platform : string;
  delivery_mentioned : Z;
  quality_mentioned : Z;
  value_mentioned : Z
}.

End Csv.

(** ** The world a run acts on

    The network answers a URL; the random generator and the clock are read
    one value at a time ([drawn] and [ticks] count the reads); the disk
    holds the tables written, and [writable] tells whether [to_csv] can
    create a file. *)

Record World (tag : Type) := {
  get : string -> response tag;
  entropy : nat -> Z;
  drawn : nat;
  calendar : nat -> string;
  seconds : nat -> Z;
  ticks : nat;
  writable : string -> bool;
  files : gmap string (list Csv.Row)
}.

Arguments get {tag} _ _.
Arguments entropy {tag} _ _.
Arguments drawn {tag} _.
Arguments calendar {tag} _ _.
Arguments seconds {tag} _ _.
Arguments ticks {tag} _.
Arguments writable {tag} _ _.
Arguments files {tag} _.

(** What a call does: it raises, or it returns a path or [None]. *)
Inductive outcome : Type :=
  | Raise
  | Return (csv_path : option string).

Section Pipeline.

Context {tag : Type} `{Soup tag} `{Vader}.

(** [random.randint(a, b)] *)
Definition randint (a b : Z) (w : World tag) : Z * World tag :=
  ((a + entropy w (drawn w) mod (b - a + 1))%Z,
   {| get := get w; entropy := entropy w; drawn := S (drawn w);
      calendar := calendar w; seconds := seconds w; ticks := ticks w;
      writable := writable w; files := files w |}).

Definition tick (w : World tag) : World tag :=
  {| get := get w; entropy := entropy w; drawn := drawn w;
     calendar := calendar w; seconds := seconds w; ticks := S (ticks w);
     writable := writable w; files := files w |}.

(** [datetime.now().strftime('%Y-%m-%d')] *)
Definition now_date (w : World tag) : string * World tag :=
  (calendar w (ticks w), tick w).

(** [int(time.time())] *)
Definition now_seconds (w : World tag) : Z * World tag :=
  (seconds w (ticks w), tick w).

Definition write_file (path : string) (rows : list Csv.Row) (w : World tag)
  : World tag :=
  {| get := get w; entropy := entropy w; drawn := drawn w;
     calendar := calendar w; seconds := seconds w; ticks := ticks w;
     writable := writable w; files := <[path := rows]> (files w) |}.

(** The two derived prices of the loop body. *)
Definition original_price_of (product_data : ProductData) : Q :=
  if Qlt_bool 0 (price product_data) then (price product_data * 1.2)%Q else 0%Q.

Definition discount_percentage_of (product_data : ProductData) : Z :=
  let original_price := original_price_of product_data in
  if Qlt_bool 0 original_price
  then py_int ((original_price - price product_data) / original_price * 100)%Q
  else 0%Z.

(** The body of the loop over the reviews. *)
Definition make_row (product_data : ProductData) (review_counter : nat)
    (review : string) (rating : Q) (w : World tag) : Csv.Row * World tag :=
  let sentiment_data := predict (Some review) in
  let delivery_mentioned := detect_feature (Some review) "delivery" in
  let quality_mentioned := detect_feature (Some review) "quality" in
  let value_mentioned := detect_feature (Some review) "value" in
  let original_price := original_price_of product_data in
  let discount_percentage := discount_percentage_of product_data in
  let '(date, w) := now_date w in
  let '(helpful, w) := randint 0 100 w in
  let '(total, w) := randint 50 150 w in
  ({| Csv.review_id := "R" +:+ fmt_0d 6 review_counter;
      Csv.product_id := "B0" +:+ fmt_0d 8 review_counter;
      Csv.product_name := product_name product_data;
      Csv.review_text := review;
      Csv.rating := py_int rating;
      Csv.review_date := date;
      Csv.reviewer_name := "Reviewer_" +:+ str_nat review_counter;
      Csv.verified_purchase := 1;
      Csv.helpful_votes := helpful;
      Csv.total_votes := total;
      Csv.sentiment_label := sentiment sentiment_data;
      Csv.compound_score := py_round (compound_score sentiment_data) 4;
      Csv.positive_score := py_round (pos_score sentiment_data) 4;
      Csv.negative_score := py_round (neg_score sentiment_data) 4;
      Csv.neutral_score := py_round (neu_score sentiment_data) 4;
      Csv.product_price := py_round (price product_data) 2;
      Csv.original_price := py_round original_price 2;
      Csv.discount_percentage := discount_percentage;
      Csv.platform := "Amazon";
      Csv.delivery_mentioned := delivery_mentioned;
      Csv.quality_mentioned := quality_mentioned;
      Csv.value_mentioned := value_mentioned |}, w).

(** The loop over [zip(reviews, ratings)]: a row is appended for each pair
    and the counter goes up by one. *)
Fixpoint build_rows (product_data : ProductData) (pairs : list (string * Q))
    (review_counter : nat) (w : World tag) : list Csv.Row * World tag :=
  match pairs with
  | [] => ([], w)
  | (review, rating) :: pairs' =>
      let '(row, w) := make_row product_data review_counter review rating w in
      let '(rows, w) := build_rows product_data pairs' (S review_counter) w in
      (row :: rows, w)
  end.

(** [os.path.join(output_dir, filename)] for a file name that does not
    start with a slash. *)
Definition path_join (output_dir filename : string) : string :=
  if negb (Py.truthy output_dir) then filename
  else if Py.starts_with "/" (Py.rev_string "" output_dir)
       then output_dir +:+ filename
       else output_dir +:+ "/" +:+ filename.

(** [str(n)] for an integer. *)
Definition str_Z (n : Z) : string := NilEmpty.string_of_int (Z.to_int n).

(** The rows of a run, before they are saved. *)
Definition rows_of (product_data : ProductData) (w : World tag)
  : list Csv.Row * World tag :=
  build_rows product_data (zip (reviews product_data) (ratings product_data)) 1 w.

Definition generate_csv_from_url (w : World tag) (product_url output_dir : string)
  : outcome * World tag :=
  match scrape_product (get w) product_url with
  | None => (Return None, w)
  | Some product_data =>
      match reviews product_data with
      | [] => (Return None, w)
      | _ :: _ =>
          let '(rows, w) := rows_of product_data w in
          match rows with
          | [] => (Raise, w)   (* no column to select in an empty frame *)
          | _ :: _ =>
              let '(t, w) := now_seconds w in
              let filename := "amazon_reviews_" +:+ str_Z t +:+ ".csv" in
              let filepath := path_join output_dir filename in
              if writable w filepath
              then (Return (Some filepath), write_file filepath rows w)
              else (Return None, w)
          end
      end
  end.

(** The batch loop: the [try] around each call lets the loop go on after
    an exception, and only a truthy path is appended. *)
Fixpoint generate_csv_for_products (w : World tag) (urls : list string)
    (output_dir : string) : list string * World tag :=
  match urls with
  | [] => ([], w)
  | url :: urls' =>
      let '(o, w) := generate_csv_from_url w url output_dir in
      let '(generated_csvs, w') := generate_csv_for_products w urls' output_dir in
      match o with
      | Return (Some csv_path) =>
          if Py.truthy csv_path then (csv_path :: generated_csvs, w')
          else (generated_csvs, w')
      | Return None | Raise => (generated_csvs, w')
      end
  end.

End Pipeline.

(** ** A document tree

    An instance of the page interface, to run the code on concrete pages:
    a tree of elements and texts, and the selectors of the code read as
    chains of compound selectors under the descendant combinator. *)

Module Dom.

#[warning="-register-all"]
Inductive node : Type :=
  | Text (s : string)
  | Elem (name : string) (attrs : list (string * string)) (children : list node).

(** A compound selector: [tag#id.class1.class2[attr="value"]], each part
    optional. *)
Record simple := {
  c_tag : option string;
  c_id : option string;
  c_classes : list string;
  c_attr : option (string * string)
}.

Definition by_id (i : string) : simple :=
  {| c_tag := None; c_id := Some i; c_classes := []; c_attr := None |}.
Definition by_tag_id (t i : string) : simple :=
  {| c_tag := Some t; c_id := Some i; c_classes := []; c_attr := None |}.
Definition by_tag_class (t c : string) : simple :=
  {| c_tag := Some t; c_id := None; c_classes := [c]; c_attr := None |}.
Definition by_classes (cs : list string) : simple :=
  {| c_tag := None; c_id := None; c_classes := cs; c_attr := None |}.
Definition by_attr (a v : string) : simple :=
  {| c_tag := None; c_id := None; c_classes := []; c_attr := Some (a, v) |}.

(** The selectors of [ProductScraper], outermost compound first. *)
Definition parsed_selectors : list (string * list simple) :=
  [ ("#productTitle", [by_id "productTitle"]);
    ("h1#title", [by_tag_id "h1" "title"]);
    ("span#productTitle", [by_tag_id "span" "productTitle"]);
    ("span.a-price-whole", [by_tag_class "span" "a-price-whole"]);
    ("span.a-price span.a-offscreen",
       [by_tag_class "span" "a-price"; by_tag_class "span" "a-offscreen"]);
    ("#priceblock_ourprice", [by_id "priceblock_ourprice"]);
    (attr_selector "data-hook" "review", [by_attr "data-hook" "review"]);
    (".review", [by_classes ["review"]]);
    (".a-section.review", [by_classes ["a-section"; "review"]]);
    (attr_selector "data-hook" "review-body", [by_attr "data-hook" "review-body"]);
    (".review-text", [by_classes ["review-text"]]);
    (attr_selector "data-hook" "review-star-rating",
       [by_attr "data-hook" "review-star-rating"]) ].

Fixpoint assoc {A : Type} (k : string) (l : list (string * A)) : option A :=
  match l with
  | [] => None
  | (k', v) :: l' => if String.eqb k k' then Some v else assoc k l'
  end.

Definition opt_holds {A : Type} (p : A -> bool) (o : option A) : bool :=
  match o with Some a => p a | None => true end.

Definition has_value (attrs : list (string * string)) (a v : string) : bool :=
  match assoc a attrs with Some v' => String.eqb v v' | None => false end.

Definition has_class (attrs : list (string * string)) (c : string) : bool :=
  match assoc "class" attrs with
  | Some v => existsb (String.eqb c) (Py.split v)
  | None => false
  end.

Definition matches (c : simple) (name : string) (attrs : list (string * string))
  : bool :=
  opt_holds (String.eqb name) (c_tag c)
  && opt_holds (has_value attrs "id") (c_id c)
  && forallb (has_class attrs) (c_classes c)
  && opt_holds (fun av => has_value attrs av.1 av.2) (c_attr c).

(** [outer] lists the compounds an ancestor chain must satisfy, innermost
    first; [ancestors] lists the ancestors, nearest first. *)
Fixpoint ancestors_match (outer : list simple)
    (ancestors : list (string * list (string * string))) : bool :=
  match outer with
  | [] => true
  | c :: outer' =>
      (fix find (l : list (string * list (string * string))) : bool :=
         match l with
         | [] => false
         | (n, a) :: l' =>
             (matches c n a && ancestors_match outer' l') || find l'
         end) ancestors
  end.

Definition chain_matches (chain : list simple)
    (ancestors : list (string * list (string * string)))
    (name : string) (attrs : list (string * string)) : bool :=
  match rev chain with
  | [] => false
  | c :: outer => matches c name attrs && ancestors_match outer ancestors
  end.

(** The matches in the subtree of [n], [n] included, in document order. *)
Fixpoint descend (chain : list simple)
    (ancestors : list (string * list (string * string))) (n : node) : list node :=
  match n with
  | Text _ => []
  | Elem name attrs children =>
      (if chain_matches chain ancestors name attrs then [n] else [])
      ++ (fix go (l : list node) : list node :=
            match l with
            | [] => []
            | c :: l' => descend chain ((name, attrs) :: ancestors) c ++ go l'
            end) children
  end.

(** [n.select(sel)]: the matches among the descendants of [n]. *)
Definition select_node (sel : string) (n : node) : list node :=
  match assoc sel parsed_selectors, n with
  | Some chain, Elem _ _ children => flat_map (descend chain []) children
  | _, _ => []
  end.

(** [n.get_text()]: the texts below [n], in document order. *)
Fixpoint text_of (n : node) : string :=
  match n with
  | Text s => s
  | Elem _ _ children =>
      (fix go (l : list node) : string :=
         match l with
         | [] => ""
         | c :: l' => text_of c +:+ go l'
         end) children
  end.

#[export] Instance soup : Soup node :=
  {| select := select_node; get_text := text_of |}.

(** The document: what [BeautifulSoup(content)] gives for these top-level
    nodes. *)
Definition document (children : list node) : node := Elem "[document]" [] children.

End Dom.

(** ** Concrete pages and worlds, to run the code on *)

Module Fixture.

Import Dom.

(** A lexicon that knows two words. *)
#[export] Instance two_words : Vader :=
  {| polarity_scores := fun text =>
       {| neg := 0.0; neu := 1.0; pos := 0.0;
          compound := if Py.contains "good" text then 0.05
                      else if Py.contains "bad" text then (-0.05)
                      else 0.0 |} |}.

Definition review_box (body : string) (stars : option string) : node :=
  Elem "div" [("data-hook", "review")]
    (Elem "span" [("data-hook", "review-body")] [Text body]
     :: match stars with
        | Some s => [Elem "i" [("data-hook", "review-star-rating")] [Text s]]
        | None => []
        end).

Definition title (s : string) : node :=
  Elem "span" [("id", "productTitle")] [Text s].

Definition offscreen_price (s : string) : node :=
  Elem "span" [("class", "a-price")]
    [Elem "span" [("class", "a-offscreen")] [Text s]].

(** Three reviews of 5, 25 and 40 characters. *)
Definition bottle_page : node :=
  document
    [ title "  Steel   water bottle ";
      offscreen_price "$1,299.50";
      review_box "short" None;
      review_box "A sturdy bottle, worth it" (Some "4.5 out of 5 stars");
      review_box "Fast delivery, but the material is cheap" (Some "2.0 out of 5 stars") ].

(** The same page behind a challenge. *)
Definition challenge_page : node :=
  document
    [ Elem "p" [] [Text "Enter the CAPTCHA to continue"];
      review_box "A sturdy bottle, worth it" (Some "4.5 out of 5 stars") ].

(** A page whose only number is a star count, in a price element. *)
Definition stars_only_page : node :=
  document
    [ title "Steel water bottle";
      Elem "span" [("class", "a-price-whole")] [Text "4.5"];
      review_box "A sturdy bottle, worth it" None ].

(** A review that claims ten stars. *)
Definition ten_stars : node :=
  review_box "A sturdy bottle, worth it" (Some "10 out of 5 stars").

Definition ten_stars_page : node :=
  document [ title "Steel water bottle"; ten_stars ].

Definition web (url : string) : response node :=
  if String.eqb url "https://shop.example/bottle" then Reply 200 bottle_page
  else if String.eqb url "https://shop.example/blocked" then Reply 200 challenge_page
  else if String.eqb url "https://shop.example/stars" then Reply 200 stars_only_page
  else if String.eqb url "https://shop.example/ten" then Reply 200 ten_stars_page
  else if String.eqb url "https://shop.example/gone" then Reply 404 (document [])
  else RequestError.

Definition world : World node :=
  {| get := web;
     entropy := fun n => (Z.of_nat n * 37)%Z;
     drawn := 0;
     calendar := fun _ => "2024-03-01";
     seconds := fun n => (Z.of_nat n + 1709280000)%Z;
     ticks := 0;
     writable := fun _ => true;
     files := ∅ |}.

End Fixture.

(** * Properties *)

(** ** Strings *)

#[local] Arguments String.append !_ _ / : simpl nomatch.
#[local] Existing Instance Dom.soup.
#[local] Existing Instance Fixture.two_words.

(** [sub] occurs in [s]. *)
Definition substring_of (sub s : string) : Prop :=
  exists a b : string, s = a +:+ sub +:+ b.

Lemma starts_with_spec (p s : string) :
  Py.starts_with p s = true <-> exists b, s = p +:+ b.
Proof.
  revert s. induction p as [|a p IH]; intros s; simpl.
  - split; [intros _; exists s; reflexivity | reflexivity].
  - destruct s as [|b s].
    + split; [discriminate | intros [x Hx]; discriminate].
    + destruct (Ascii.eqb_spec a b) as [->|Hne].
      * rewrite IH. split; intros [x Hx]; exists x; simpl in *; congruence.
      * split; [discriminate | intros [x Hx]; simpl in Hx; congruence].
Qed.

Lemma contains_spec (sub s : string) :
  Py.contains sub s = true <-> substring_of sub s.
Proof.
  unfold substring_of. induction s as [|c s IH].
  - simpl. rewrite orb_false_r, starts_with_spec. split.
    + intros [b Hb]. exists "", b. exact Hb.
    + intros [a [b Hab]]. destruct a; [exists b; exact Hab | discriminate].
  - cbn [Py.contains]. rewrite orb_true_iff, starts_with_spec, IH. split.
    + intros [[b Hb] | [a [b Hab]]].
      * exists "", b. exact Hb.
      * exists (String c a), b. simpl. congruence.
    + intros [a [b Hab]]. destruct a as [|c' a].
      * left. exists b. exact Hab.
      * right. exists a, b. simpl in Hab. congruence.
Qed.

(** ** The feature tagger *)

(** The taxonomy of the specification. *)
Inductive Feature : Type := Delivery | Quality | Value.

Definition feature_name (f : Feature) : string :=
  match f with
  | Delivery => "delivery"
  | Quality => "quality"
  | Value => "value"
  end.

(** The keyword lists as the specification gives them. *)
Definition spec_keywords (f : Feature) : list string :=
  match f with
  | Delivery => ["delivery"; "shipping"; "packaging"; "arrival"; "dispatch"]
  | Quality => ["quality"; "durable"; "sturdy"; "defect"; "material"]
  | Value => ["value"; "worth"; "expensive"; "cheap"; "money"]
  end.

Lemma keywords_of_feature (f : Feature) :
  keywords !! feature_name f = Some (spec_keywords f).
Proof. destruct f; reflexivity. Qed.

Lemma keywords_unknown (feature : string) :
  feature <> "delivery" -> feature <> "quality" -> feature <> "value" ->
  keywords !! feature = None.
Proof.
  intros Hd Hq Hv. unfold keywords.
  rewrite !lookup_insert_ne by congruence. apply lookup_empty.
Qed.

Lemma any_keyword_spec (kws : list string) (t : string) :
  existsb (fun kw => Py.contains kw t) kws = true
  <-> exists kw, In kw kws /\ substring_of kw t.
Proof.
  rewrite existsb_exists. split; intros [kw [Hin Hc]]; exists kw; split; auto;
    apply contains_spec; exact Hc.
Qed.

(** C9. For each of the three features, [detect_feature] gives 1 exactly
    when one of the feature's keywords occurs in the lower-cased text, and
    0 otherwise; a missing or empty text gives 0; the match ignores case,
    as on "FAST DELIVERY". *)
Theorem detect_feature_keywords (f : Feature) (text : option string) :
  (detect_feature text (feature_name f) = 1%Z
   <-> exists s kw, text = Some s /\ In kw (spec_keywords f)
                    /\ substring_of kw (Py.lower s))
  /\ (detect_feature text (feature_name f) = 0%Z
      \/ detect_feature text (feature_name f) = 1%Z)
  /\ detect_feature None (feature_name f) = 0%Z
  /\ detect_feature (Some "") (feature_name f) = 0%Z
  /\ detect_feature (Some "FAST DELIVERY") (feature_name Delivery) = 1%Z.
Proof.
  split; [| split; [| split; [reflexivity | split; reflexivity]]].
  - destruct text as [[|c s]|].
    + split; [discriminate |].
      intros [s [kw [Hs [Hin [a [b Hab]]]]]]. injection Hs as <-.
      simpl in Hab. destruct a; [| discriminate]. simpl in Hab.
      destruct kw; [| discriminate].
      destruct f; simpl in Hin; intuition discriminate.
    + unfold detect_feature. rewrite keywords_of_feature. simpl default.
      destruct (existsb _ _) eqn:E.
      * split; [intros _ | reflexivity].
        apply any_keyword_spec in E. destruct E as [kw [Hin Hsub]].
        exists (String c s), kw. auto.
      * split; [discriminate |].
        intros [s' [kw [Hs [Hin Hsub]]]]. injection Hs as <-.
        assert (existsb (fun kw => Py.contains kw (Py.lower (String c s)))
                  (spec_keywords f) = true) as E'
          by (apply any_keyword_spec; eauto).
        congruence.
    + split; [discriminate | intros [s [kw [Hs _]]]; discriminate].
  - destruct text as [[|c s]|]; [left; reflexivity | | left; reflexivity].
    unfold detect_feature. destruct (existsb _ _); auto.
Qed.

(** C10. For a feature name outside the taxonomy the keyword list is
    empty and [detect_feature] returns 0, whatever the text. *)
Theorem detect_feature_unknown (text : option string) (feature : string) :
  feature <> "delivery" -> feature <> "quality" -> feature <> "value" ->
  detect_feature text feature = 0%Z.
Proof.
  intros Hd Hq Hv. destruct text as [[|c s]|]; try reflexivity.
  unfold detect_feature. rewrite keywords_unknown by assumption. reflexivity.
Qed.

Lemma detect_feature_unknown_witness :
  detect_feature (Some "fast delivery, good value") "price" = 0%Z.
Proof.
  apply (detect_feature_unknown (Some "fast delivery, good value") "price");
    discriminate.
Defined.

(** ** The sentiment scorer *)

Definition neutral_default : Prediction :=
  {| sentiment := Neutral; compound_score := 0.0; pos_score := 0.0;
     neg_score := 0.0; neu_score := 1.0 |}.

(** The thresholds as the specification gives them. *)
Definition spec_label (c : Q) : Sentiment :=
  if Qle_bool 0.05 c then Positive
  else if Qle_bool c (-0.05) then Negative
  else Neutral.

(** C2. The label of [predict] is Positive from 0.05 up, Negative from
    -0.05 down, both bounds included, and Neutral between them; a missing
    or empty text gives the neutral default. *)
Theorem predict_thresholds `{Vader} (text : option string) :
  let r := predict text in
  ((0.05 <= compound_score r)%Q -> sentiment r = Positive)
  /\ ((compound_score r <= -0.05)%Q -> sentiment r = Negative)
  /\ ((-0.05 < compound_score r)%Q -> (compound_score r < 0.05)%Q ->
      sentiment r = Neutral)
  /\ (forall s, text = Some s -> s <> "" ->
      compound_score r = compound (polarity_scores s))
  /\ predict None = neutral_default
  /\ predict (Some "") = neutral_default.
Proof.
  assert (Hlab : sentiment (predict text) = spec_label (compound_score (predict text))).
  { destruct text as [[|c s]|]; reflexivity. }
  cbv zeta. rewrite Hlab. unfold spec_label.
  repeat split.
  - intros Hc. apply Qle_bool_iff in Hc. rewrite Hc. reflexivity.
  - intros Hc.
    destruct (Qle_bool 0.05 _) eqn:E.
    + apply Qle_bool_iff in E.
      exfalso. apply (Qle_not_lt _ _ (Qle_trans _ _ _ E Hc)). reflexivity.
    + apply Qle_bool_iff in Hc. rewrite Hc. reflexivity.
  - intros Hlo Hhi.
    destruct (Qle_bool 0.05 _) eqn:E.
    + apply Qle_bool_iff in E. exfalso. exact (Qle_not_lt _ _ E Hhi).
    + destruct (Qle_bool _ (-0.05)) eqn:E'; [| reflexivity].
      apply Qle_bool_iff in E'. exfalso. exact (Qle_not_lt _ _ E' Hlo).
  - intros s -> Hs. destruct s; [congruence | reflexivity].
Qed.

Example predict_at_the_bounds :
  sentiment (predict (Some "good")) = Positive
  /\ compound_score (predict (Some "good")) = 0.05%Q
  /\ sentiment (predict (Some "bad")) = Negative
  /\ compound_score (predict (Some "bad")) = (-0.05)%Q
  /\ sentiment (predict (Some "a bottle")) = Neutral.
Proof. repeat split. Qed.

(** ** Loops that return *)

Lemma for_return_app {A B : Type} (body : A -> option B) (l1 l2 : list A) :
  for_return body (l1 ++ l2)
  = match for_return body l1 with
    | Some b => Some b
    | None => for_return body l2
    end.
Proof.
  induction l1 as [|x l1 IH]; simpl; [reflexivity |].
  destruct (body x); [reflexivity | exact IH].
Qed.

Lemma for_return_nested {A B C : Type} (inner : A -> list B)
    (body : B -> option C) (l : list A) :
  for_return (fun x => for_return body (inner x)) l
  = for_return body (flat_map inner l).
Proof.
  induction l as [|x l IH]; simpl; [reflexivity |].
  rewrite for_return_app, IH. reflexivity.
Qed.

(** The loop returns at the first element its body accepts. *)
Lemma for_return_first {A B : Type} (body : A -> option B) (l : list A) :
  match for_return body l with
  | Some b =>
      exists l1 x l2, l = l1 ++ x :: l2 /\ body x = Some b
                      /\ Forall (fun y => body y = None) l1
  | None => Forall (fun y => body y = None) l
  end.
Proof.
  induction l as [|x l IH]; simpl; [constructor |].
  destruct (body x) as [b|] eqn:E.
  - exists [], x, l. repeat split; [exact E | constructor].
  - destruct (for_return body l) as [b|].
    + destruct IH as [l1 [y [l2 [-> [Hy Hl1]]]]].
      exists (x :: l1), y, l2. repeat split; [exact Hy | constructor; assumption].
    + constructor; assumption.
Qed.

(** ** Numbers read from text *)

Lemma digit_val_nonneg (c : ascii) : (0 <= Py.digit_val c)%Z.
Proof. unfold Py.digit_val. lia. Qed.

Lemma digits_val_nonneg (s : string) (acc : Z) :
  (0 <= acc)%Z -> (0 <= Py.digits_val acc s)%Z.
Proof.
  revert acc. induction s as [|c s IH]; intros acc Hacc; simpl; [exact Hacc |].
  apply IH. pose proof (digit_val_nonneg c). lia.
Qed.

Lemma float_of_token_nonneg (tok : string) : (0 <= Py.float_of_token tok)%Q.
Proof.
  unfold Py.float_of_token. destruct (Py.span_digits tok) as [d r].
  assert (0 <= Py.digits_val 0 d)%Z as Hd by (apply digits_val_nonneg; lia).
  destruct r as [|c f].
  - unfold Qle, inject_Z. simpl. lia.
  - destruct (Ascii.eqb_spec c ".") as [->|Hne].
    + unfold Qle. simpl. pose proof (digits_val_nonneg f _ Hd). lia.
    + assert (0 <= inject_Z (Py.digits_val 0 d))%Q as Hq
        by (unfold Qle, inject_Z; simpl; lia).
      destruct c as [[] [] [] [] [] [] [] []]; try exact Hq.
      congruence.
Qed.

Lemma py_int_floor (x : Q) : (0 <= x)%Q -> py_int x = Qfloor x.
Proof.
  destruct x as [n d]. unfold Qle, py_int, Qfloor. simpl. intros Hn.
  apply Z.quot_div_nonneg; lia.
Qed.

Lemma py_int_nonneg (x : Q) : (0 <= x)%Q -> (0 <= py_int x)%Z.
Proof.
  intros Hx. rewrite py_int_floor by exact Hx.
  rewrite <- (Qfloor_Z 0). apply Qfloor_resp_le. exact Hx.
Qed.

(** ** Extraction *)

Section Extraction.

Context {tag : Type} `{Soup tag}.

(** *** Reviews *)

(** The usable reviews among the containers one selector finds. *)
Definition usable (soup : tag) (container_selector : string) : list (string * Q) :=
  omap review_of_elem (select container_selector soup).

(** The usable reviews of the first selector that has any. *)
Fixpoint first_usable (soup : tag) (sels : list string) : list (string * Q) :=
  match sels with
  | [] => []
  | sel :: sels' =>
      match usable soup sel with
      | [] => first_usable soup sels'
      | found => found
      end
  end.

Lemma visit_review_fold (elems : list tag) (acc : list string * list Q) :
  fold_left visit_review elems acc
  = (acc.1 ++ (omap review_of_elem elems).*1,
     acc.2 ++ (omap review_of_elem elems).*2).
Proof.
  revert acc. induction elems as [|e elems IH]; intros [rs ts]; simpl.
  - rewrite !app_nil_r. reflexivity.
  - rewrite IH. unfold visit_review.
    destruct (review_of_elem e) as [[t r]|]; simpl; [| reflexivity].
    rewrite <- !app_assoc. reflexivity.
Qed.

Lemma visit_containers_first (soup : tag) (sels : list string) :
  visit_containers sels soup ([], [])
  = ((first_usable soup sels).*1, (first_usable soup sels).*2).
Proof.
  induction sels as [|sel sels IH]; simpl; [reflexivity |].
  rewrite visit_review_fold. simpl. fold (usable soup sel).
  destruct (usable soup sel) as [|[t r] found]; simpl; [exact IH | reflexivity].
Qed.

Lemma extract_reviews_first (soup : tag) :
  _extract_reviews_and_ratings soup
  = ((first_usable soup review_containers).*1,
     (first_usable soup review_containers).*2).
Proof. apply visit_containers_first. Qed.

Lemma first_usable_from (soup : tag) (sels : list string) :
  (first_usable soup sels = [] /\ Forall (fun s => usable soup s = []) sels)
  \/ exists before sel after,
       sels = before ++ sel :: after
       /\ Forall (fun s => usable soup s = []) before
       /\ usable soup sel <> []
       /\ first_usable soup sels = usable soup sel.
Proof.
  induction sels as [|sel sels IH]; simpl; [left; split; [reflexivity | constructor] |].
  destruct (usable soup sel) as [|p found] eqn:E.
  - destruct IH as [[IH Hall] | [before [s [after [-> [Hb [Hne Hs]]]]]]].
    + left. split; [exact IH | constructor; assumption].
    + right. exists (sel :: before), s, after.
      repeat split; [| exact Hne | exact Hs]. constructor; assumption.
  - right. exists [], sel, sels. rewrite E.
    repeat split; [constructor | discriminate].
Qed.

Lemma review_of_elem_long (e : tag) (t : string) (r : Q) :
  review_of_elem e = Some (t, r) ->
  20 <= String.length t /\ review_text_of e = Some t /\ r = rating_of e.
Proof.
  unfold review_of_elem. destruct (review_text_of e) as [t'|]; [| discriminate].
  destruct (negb (Py.truthy t') || (String.length t' <? 20)) eqn:E; [discriminate |].
  intros [= <- <-]. apply orb_false_elim in E as [_ E].
  apply Nat.ltb_ge in E. auto.
Qed.

Lemma review_of_elem_short (e : tag) (t : string) :
  review_text_of e = Some t -> String.length t < 20 -> review_of_elem e = None.
Proof.
  intros Ht Hlen. unfold review_of_elem. rewrite Ht.
  apply Nat.ltb_lt in Hlen. rewrite Hlen, orb_true_r. reflexivity.
Qed.

Lemma usable_long (soup : tag) (sel : string) :
  Forall (fun p => 20 <= String.length p.1) (usable soup sel).
Proof.
  apply Forall_forall. intros [t r] Hin.
  unfold usable in Hin. apply list_elem_of_omap in Hin.
  destruct Hin as [e [_ He]]. apply review_of_elem_long in He. tauto.
Qed.

Lemma first_usable_long (soup : tag) (sels : list string) :
  Forall (fun p => 20 <= String.length p.1) (first_usable soup sels).
Proof.
  destruct (first_usable_from soup sels) as [[-> _] | [b [s [a [_ [_ [_ ->]]]]]]];
    [constructor | apply usable_long].
Qed.

Lemma rating_of_nonneg (e : tag) : (0 <= rating_of e)%Q.
Proof.
  unfold rating_of.
  destruct (select_one _ e) as [r|]; [| discriminate].
  destruct (Py.search_number _); [apply float_of_token_nonneg | discriminate].
Qed.

Lemma first_usable_ratings (soup : tag) (sels : list string) :
  Forall (fun p => (0 <= p.2)%Q) (first_usable soup sels).
Proof.
  destruct (first_usable_from soup sels) as [[-> _] | [b [s [a [_ [_ [_ ->]]]]]]];
    [constructor |].
  apply Forall_forall. intros [t r] Hin.
  unfold usable in Hin. apply list_elem_of_omap in Hin.
  destruct Hin as [e [_ He]]. apply review_of_elem_long in He.
  destruct He as [_ [_ ->]]. apply rating_of_nonneg.
Qed.

(** What [scrape_product] returns, when it returns a record. *)
Lemma scrape_product_some (get : string -> response tag) (url : string)
    (product_data : ProductData) :
  scrape_product get url = Some product_data ->
  exists soup,
    get url = Reply 200 soup
    /\ blocked soup = false
    /\ product_name product_data = _extract_product_name soup
    /\ price product_data = _extract_price soup
    /\ reviews product_data = (first_usable soup review_containers).*1
    /\ ratings product_data = (first_usable soup review_containers).*2
    /\ reviews product_data <> [].
Proof.
  unfold scrape_product. destruct (get url) as [|status soup]; [discriminate |].
  destruct (Z.eqb_spec status 200) as [->|Hne]; simpl; [| discriminate].
  destruct (blocked soup) eqn:Hb; [discriminate |].
  rewrite extract_reviews_first.
  destruct ((first_usable soup review_containers).*1) as [|t ts] eqn:E;
    [discriminate |].
  intros [= <-]. exists soup. simpl. repeat split; try assumption.
  - symmetry. exact E.
  - discriminate.
Qed.

End Extraction.

(** *** Price *)

Lemma Qlt_bool_iff (a b : Q) : Qlt_bool a b = true <-> (a < b)%Q.
Proof.
  unfold Qlt_bool. rewrite negb_true_iff. split.
  - intros E. apply Qnot_le_lt. intros Hle. apply Qle_bool_iff in Hle. congruence.
  - intros Hlt. destruct (Qle_bool b a) eqn:E; [| reflexivity].
    apply Qle_bool_iff in E. exfalso. exact (Qle_not_lt _ _ E Hlt).
Qed.

(** The open range of a plausible price. *)
Definition in_range (q : Q) : Prop := (100 < q)%Q /\ (q < 1000000)%Q.

Section Price.

Context {tag : Type} `{Soup tag}.

(** The numeric candidate of a price element: its text without currency
    sign, commas and white space, and the first number in what is left. *)
Definition candidate (elem : tag) : option Q :=
  Py.float_of_token
    <$> Py.search_number (Py.remove_class price_noise (get_text elem)).

(** The candidates of a page, in the order the code meets them. *)
Definition candidates (soup : tag) : list Q :=
  flat_map (fun selector => omap candidate (select selector soup)) price_selectors.

Lemma price_of_elem_some (elem : tag) (p : Q) :
  price_of_elem elem = Some p <-> candidate elem = Some p /\ in_range p.
Proof.
  unfold price_of_elem, candidate, in_range.
  destruct (Py.search_number _) as [tok|]; simpl.
  - destruct (Qlt_bool 100 _ && Qlt_bool _ 1000000) eqn:E.
    + apply andb_true_iff in E as [E1 E2].
      apply Qlt_bool_iff in E1, E2.
      split; [intros [= <-]; auto | intros [[= <-] _]; reflexivity].
    + split; [discriminate |]. intros [[= <-] [H1 H2]].
      apply Qlt_bool_iff in H1, H2. rewrite H1, H2 in E. discriminate.
  - split; [discriminate | intros [? _]; discriminate].
Qed.

Lemma price_of_elem_none (elems : list tag) :
  Forall (fun e => price_of_elem e = None) elems ->
  Forall (fun q => ~ in_range q) (omap candidate elems).
Proof.
  intros Hall. apply Forall_forall. intros q Hq.
  apply list_elem_of_omap in Hq. destruct Hq as [e [He Hc]].
  rewrite Forall_forall in Hall. specialize (Hall e He).
  intros Hr. assert (price_of_elem e = Some q) as E
    by (apply price_of_elem_some; auto).
  congruence.
Qed.

Lemma omap_flat_map {A B C : Type} (f : B -> option C) (g : A -> list B)
    (l : list A) :
  omap f (flat_map g l) = flat_map (fun x => omap f (g x)) l.
Proof.
  induction l as [|x l IH]; simpl; [reflexivity |].
  rewrite omap_app, IH. reflexivity.
Qed.

Lemma extract_price_first (soup : tag) :
  let p := _extract_price soup in
  (exists l1 l2, candidates soup = l1 ++ p :: l2
                 /\ Forall (fun q => ~ in_range q) l1 /\ in_range p)
  \/ (p = 0.0%Q /\ Forall (fun q => ~ in_range q) (candidates soup)).
Proof.
  unfold _extract_price, candidates. rewrite for_return_nested.
  rewrite <- omap_flat_map.
  generalize (flat_map (fun selector => select selector soup) price_selectors).
  intros elems. pose proof (for_return_first price_of_elem elems) as Hfirst.
  destruct (for_return price_of_elem elems) as [p|]; simpl.
  - left. destruct Hfirst as [l1 [x [l2 [-> [Hx Hl1]]]]].
    apply price_of_elem_some in Hx as [Hc Hr].
    exists (omap candidate l1), (omap candidate l2).
    rewrite omap_app. simpl. rewrite Hc.
    repeat split; try apply Hr. apply price_of_elem_none. exact Hl1.
  - right. split; [reflexivity |]. apply price_of_elem_none. exact Hfirst.
Qed.

End Price.


(** *** Challenge pages *)

Lemma take_lower (n : nat) (s : string) :
  Py.take n (Py.lower s) = Py.lower (Py.take n s).
Proof.
  revert s. induction n as [|n IH]; intros [|c s]; simpl; try reflexivity.
  rewrite IH. reflexivity.
Qed.

Lemma blocked_spec {tag : Type} `{Soup tag} (soup : tag) :
  blocked soup = true
  <-> substring_of "captcha" (Py.lower (get_text soup))
      \/ substring_of "robot" (Py.lower (Py.take 500 (get_text soup))).
Proof.
  unfold blocked. rewrite orb_true_iff, !contains_spec, take_lower. reflexivity.
Qed.

(** C4. A page whose lower-cased text contains "captcha", or whose first
    500 characters, lower-cased, contain "robot", gives no product record,
    whatever its status and whatever the selectors would find in it. *)
Theorem challenge_page_fails {tag : Type} `{Soup tag}
    (get : string -> response tag) (url : string) (status_code : Z) (soup : tag) :
  get url = Reply status_code soup ->
  substring_of "captcha" (Py.lower (get_text soup))
  \/ substring_of "robot" (Py.lower (Py.take 500 (get_text soup))) ->
  scrape_product get url = None.
Proof.
  intros Hget Hblocked. apply blocked_spec in Hblocked.
  unfold scrape_product. rewrite Hget, Hblocked.
  destruct (negb _); reflexivity.
Qed.

Lemma challenge_page_fails_witness :
  first_usable Fixture.challenge_page review_containers
    = [("A sturdy bottle, worth it", 4.5%Q)]
  /\ scrape_product Fixture.web "https://shop.example/blocked" = None.
Proof.
  split; [reflexivity |].
  apply (challenge_page_fails Fixture.web "https://shop.example/blocked" 200
           Fixture.challenge_page).
  - reflexivity.
  - left. exists "enter the ", " to continuea sturdy bottle, worth it4.5 out of 5 stars".
    reflexivity.
Defined.

(** ** Row assembly *)

Section Rows.

Context {tag : Type} `{Soup tag} `{Vader}.

Lemma build_rows_length (product_data : ProductData) (pairs : list (string * Q))
    (review_counter : nat) (w : World tag) :
  length (build_rows product_data pairs review_counter w).1 = length pairs.
Proof.
  revert review_counter w.
  induction pairs as [|[review rating] pairs IH]; intros c w; [reflexivity |].
  cbn [build_rows].
  destruct (make_row product_data c review rating w) as [row w1].
  specialize (IH (S c) w1).
  destruct (build_rows product_data pairs (S c) w1) as [rows w2].
  simpl in *. congruence.
Qed.

(** The row at position [i] is the one the loop body makes of the pair at
    position [i], with the counter [i] steps further. *)
Lemma build_rows_lookup (product_data : ProductData) (pairs : list (string * Q))
    (review_counter : nat) (w : World tag) (i : nat) (review : string) (rating : Q) :
  pairs !! i = Some (review, rating) ->
  exists wi : World tag,
    (build_rows product_data pairs review_counter w).1 !! i
    = Some (make_row product_data (review_counter + i) review rating wi).1.
Proof.
  revert review_counter w i.
  induction pairs as [|[review' rating'] pairs IH]; intros c w i Hi;
    [discriminate |].
  cbn [build_rows].
  destruct (make_row product_data c review' rating' w) as [row w1] eqn:Erow.
  specialize (IH (S c) w1).
  destruct (build_rows product_data pairs (S c) w1) as [rows w2].
  destruct i as [|i]; simpl in Hi.
  - injection Hi as -> ->. exists w. rewrite Nat.add_0_r, Erow. reflexivity.
  - destruct (IH i Hi) as [wi Hwi]. exists wi.
    replace (c + S i) with (S c + i) by lia. exact Hwi.
Qed.

Lemma zip_fst_snd {A B : Type} (l : list (A * B)) : zip (l.*1) (l.*2) = l.
Proof. induction l as [|[a b] l IH]; csimpl; congruence. Qed.

(** A path the run returns names a file that holds the rows of the
    record the scraper gave. *)
Lemma generate_csv_from_url_some (w w' : World tag) (product_url output_dir path : string) :
  generate_csv_from_url w product_url output_dir = (Return (Some path), w') ->
  exists product_data,
    scrape_product (get w) product_url = Some product_data
    /\ files w' !! path = Some (rows_of product_data w).1
    /\ Py.truthy path = true.
Proof.
  unfold generate_csv_from_url.
  destruct (scrape_product (get w) product_url) as [pd|]; [| discriminate].
  destruct (reviews pd); [discriminate |].
  destruct (rows_of pd w) as [rows w1] eqn:Erows.
  destruct rows as [|row rows]; [discriminate |].
  cbn [now_seconds].
  destruct (writable _ _); [| discriminate].
  intros [= <- <-]. exists pd. split; [reflexivity |]. split.
  - rewrite Erows. simpl. apply lookup_insert_eq.
  - unfold path_join. destruct (negb (Py.truthy output_dir)) eqn:E; [reflexivity |].
    apply negb_false_iff in E. destruct output_dir; [discriminate |].
    destruct (Py.starts_with _ _); reflexivity.
Qed.

(** A call that returns no path, or raises, writes no file. *)
Lemma generate_csv_from_url_fails (w w' : World tag) (product_url output_dir : string)
    (o : outcome) :
  generate_csv_from_url w product_url output_dir = (o, w') ->
  (forall path, o <> Return (Some path)) ->
  files w' = files w.
Proof.
  unfold generate_csv_from_url.
  destruct (scrape_product (get w) product_url) as [pd|];
    [| intros [= <- <-] _; reflexivity].
  destruct (reviews pd); [intros [= <- <-] _; reflexivity |].
  unfold rows_of.
  assert (forall pairs c (w0 : World tag),
            files (build_rows pd pairs c w0).2 = files w0) as Hfiles.
  { induction pairs as [|[r t] pairs IH]; intros c w0; [reflexivity |].
    cbn [build_rows]. specialize (IH (S c)).
    destruct (make_row pd c r t w0) as [row w1] eqn:E1.
    specialize (IH w1). destruct (build_rows pd pairs (S c) w1) as [rows w2].
    simpl in *. rewrite IH.
    unfold make_row in E1. simpl in E1. injection E1 as _ <-. reflexivity. }
  specialize (Hfiles (zip (reviews pd) (ratings pd)) 1 w).
  destruct (build_rows pd _ 1 w) as [rows w1]. simpl in Hfiles.
  destruct rows as [|row rows]; [intros [= <- <-] _; exact Hfiles |].
  cbn [now_seconds]. destruct (writable _ _).
  - intros [= <- <-] Hno. exfalso. exact (Hno _ eq_refl).
  - intros [= <- <-] _. exact Hfiles.
Qed.

End Rows.

Section Runs.

Context {tag : Type} `{Soup tag} `{Vader}.

Lemma build_rows_texts (product_data : ProductData) (pairs : list (string * Q))
    (review_counter : nat) (w : World tag) :
  Csv.review_text <$> (build_rows product_data pairs review_counter w).1 = pairs.*1.
Proof.
  revert review_counter w.
  induction pairs as [|[review rating] pairs IH]; intros c w; [reflexivity |].
  cbn [build_rows].
  destruct (make_row product_data c review rating w) as [row w1] eqn:Erow.
  specialize (IH (S c) w1).
  destruct (build_rows product_data pairs (S c) w1) as [rows w2].
  csimpl in *. rewrite IH. f_equal.
  unfold make_row in Erow. simpl in Erow. injection Erow as <- _. reflexivity.
Qed.

(** A run that returns a path has read a page with status 200 that is not
    a challenge, and has written, for the usable reviews of the first
    selector that has any, one row each, in their order. *)
Lemma run_rows (w w' : World tag) (product_url output_dir path : string) :
  generate_csv_from_url w product_url output_dir = (Return (Some path), w') ->
  exists soup product_data rows,
    get w product_url = Reply 200 soup
    /\ scrape_product (get w) product_url = Some product_data
    /\ reviews product_data = (first_usable soup review_containers).*1
    /\ ratings product_data = (first_usable soup review_containers).*2
    /\ price product_data = _extract_price soup
    /\ files w' !! path = Some rows
    /\ length rows = length (first_usable soup review_containers)
    /\ Csv.review_text <$> rows = reviews product_data
    /\ forall i review rating,
         first_usable soup review_containers !! i = Some (review, rating) ->
         exists wi : World tag,
           rows !! i = Some (make_row product_data (S i) review rating wi).1.
Proof.
  intros Hrun. apply generate_csv_from_url_some in Hrun.
  destruct Hrun as [pd [Hscrape [Hfile _]]].
  destruct (scrape_product_some _ _ _ Hscrape)
    as [soup [Hget [_ [_ [Hprice [Hrev [Hrat _]]]]]]].
  exists soup, pd, (rows_of pd w).1.
  assert (rows_of pd w
          = build_rows pd (first_usable soup review_containers) 1 w) as Erows.
  { unfold rows_of. rewrite Hrev, Hrat, zip_fst_snd. reflexivity. }
  repeat split; try assumption.
  - rewrite Erows. apply build_rows_length.
  - rewrite Erows, Hrev. apply build_rows_texts.
  - intros i review rating Hi. rewrite Erows.
    apply (build_rows_lookup pd _ 1 w) in Hi. exact Hi.
Qed.

End Runs.

(** C1. A run that returns a path has written one row for each review
    the extractor kept (each of at least 20 characters), in their order:
    the texts of the rows are the reviews, and the row at position [i],
    counted from 0, has the identifiers made of the counter [i + 1], "R"
    with the counter on at least 6 digits and "B0" with the same counter
    on at least 8 digits, zeros to the left. *)
Theorem rows_follow_reviews {tag : Type} `{Soup tag} `{Vader}
    (w w' : World tag) (product_url output_dir path : string) :
  generate_csv_from_url w product_url output_dir = (Return (Some path), w') ->
  exists product_data rows,
    scrape_product (get w) product_url = Some product_data
    /\ Forall (fun review => 20 <= String.length review) (reviews product_data)
    /\ files w' !! path = Some rows
    /\ length rows = length (reviews product_data)
    /\ Csv.review_text <$> rows = reviews product_data
    /\ forall i review,
         reviews product_data !! i = Some review ->
         exists row,
           rows !! i = Some row
           /\ Csv.review_id row = "R" +:+ fmt_0d 6 (S i)
           /\ Csv.product_id row = "B0" +:+ fmt_0d 8 (S i)
           /\ Csv.review_text row = review.
Proof.
  intros Hrun. apply run_rows in Hrun.
  destruct Hrun as [soup [pd [rows [_ [Hscrape [Hrev [_ [_ [Hfile [Hlen [Htexts Hrows]]]]]]]]]]].
  exists pd, rows. repeat split; try assumption.
  - rewrite Hrev. apply Forall_fmap. apply first_usable_long.
  - rewrite Hrev, length_fmap. exact Hlen.
  - intros i review Hi. rewrite Hrev, list_lookup_fmap in Hi.
    destruct (first_usable soup review_containers !! i) as [[t r]|] eqn:E;
      [| discriminate].
    injection Hi as <-. destruct (Hrows i t r E) as [wi Hwi].
    eexists. split; [exact Hwi |]. repeat split.
Qed.

Lemma rows_follow_reviews_witness :
  let url := "https://shop.example/bottle" in
  let path := "out/amazon_reviews_1709280002.csv" in
  let run := generate_csv_from_url Fixture.world url "out" in
  run.1 = Return (Some path)
  /\ (Csv.review_id <$> default [] (files run.2 !! path)) = ["R000001"; "R000002"]
  /\ (Csv.product_id <$> default [] (files run.2 !! path))
     = ["B000000001"; "B000000002"]
  /\ exists product_data rows,
       scrape_product Fixture.web url = Some product_data
       /\ Forall (fun review => 20 <= String.length review) (reviews product_data)
       /\ files run.2 !! path = Some rows
       /\ length rows = length (reviews product_data)
       /\ Csv.review_text <$> rows = reviews product_data
       /\ forall i review,
            reviews product_data !! i = Some review ->
            exists row,
              rows !! i = Some row
              /\ Csv.review_id row = "R" +:+ fmt_0d 6 (S i)
              /\ Csv.product_id row = "B0" +:+ fmt_0d 8 (S i)
              /\ Csv.review_text row = review.
Proof.
  cbv zeta. split; [vm_compute; reflexivity |].
  split; [vm_compute; reflexivity |]. split; [vm_compute; reflexivity |].
  apply (rows_follow_reviews Fixture.world _ "https://shop.example/bottle" "out"
           "out/amazon_reviews_1709280002.csv").
  vm_compute. reflexivity.
Defined.


(** ** Ratings *)




(** ** Derived prices *)

Lemma markup_ratio (p : Q) :
  (0 < p)%Q -> ((p * 1.2 - p) / (p * 1.2) * 100 == 50 # 3)%Q.
Proof.
  intros Hp. assert (~ p == 0)%Q as Hne.
  { intros E. rewrite E in Hp. revert Hp. apply Qlt_irrefl. }
  field. exact Hne.
Qed.

Lemma original_price_positive (product_data : ProductData) :
  (0 < price product_data)%Q ->
  original_price_of product_data = (price product_data * 1.2)%Q
  /\ (0 < original_price_of product_data)%Q.
Proof.
  intros Hp. unfold original_price_of.
  rewrite (proj2 (Qlt_bool_iff _ _) Hp). split; [reflexivity |].
  rewrite <- (Qmult_0_l 1.2). apply Qmult_lt_compat_r; [reflexivity | exact Hp].
Qed.

Lemma original_price_zero (product_data : ProductData) :
  (price product_data <= 0)%Q ->
  original_price_of product_data = 0%Q /\ discount_percentage_of product_data = 0%Z.
Proof.
  intros Hp. unfold discount_percentage_of, original_price_of.
  destruct (Qlt_bool 0 (price product_data)) eqn:E.
  - apply Qlt_bool_iff in E. exfalso. exact (Qle_not_lt _ _ Hp E).
  - split; reflexivity.
Qed.

Lemma discount_sixteen (product_data : ProductData) :
  (0 < price product_data)%Q ->
  discount_percentage_of product_data
  = Qfloor ((original_price_of product_data - price product_data)
            / original_price_of product_data * 100)
  /\ discount_percentage_of product_data = 16%Z.
Proof.
  intros Hp. destruct (original_price_positive _ Hp) as [Eop Hop].
  unfold discount_percentage_of. rewrite (proj2 (Qlt_bool_iff _ _) Hop).
  rewrite Eop. pose proof (markup_ratio _ Hp) as Hratio.
  assert (0 <= (price product_data * 1.2 - price product_data)
               / (price product_data * 1.2) * 100)%Q as Hnonneg.
  { rewrite Hratio. discriminate. }
  rewrite (py_int_floor _ Hnonneg). split; [reflexivity |].
  rewrite (Qfloor_comp _ _ Hratio). reflexivity.
Qed.

(** Every row of a table written by a run is made by the loop body. *)
Lemma run_rows_made {tag : Type} `{Soup tag} `{Vader}
    (w w' : World tag) (product_url output_dir path : string) :
  generate_csv_from_url w product_url output_dir = (Return (Some path), w') ->
  exists product_data rows,
    scrape_product (get w) product_url = Some product_data
    /\ files w' !! path = Some rows
    /\ rows <> []
    /\ Forall (fun row => exists c review rating (wi : World tag),
                 row = (make_row product_data c review rating wi).1) rows.
Proof.
  intros Hrun. apply run_rows in Hrun.
  destruct Hrun
    as [soup [pd [rows [_ [Hscrape [Hrev [_ [_ [Hfile [Hlen [_ Hrows]]]]]]]]]]].
  exists pd, rows. repeat split; try assumption.
  - apply scrape_product_some in Hscrape.
    destruct Hscrape as [soup' [_ [_ [_ [_ [Hrev' [_ Hne]]]]]]].
    intros ->. apply Hne. rewrite Hrev.
    destruct (first_usable soup review_containers); [reflexivity | discriminate].
  - apply Forall_lookup. intros i row Hi.
    assert (i < length (first_usable soup review_containers)) as Hlt
      by (rewrite <- Hlen; eapply lookup_lt_Some; exact Hi).
    apply lookup_lt_is_Some in Hlt. destruct Hlt as [[t r] E].
    destruct (Hrows i t r E) as [wi Hwi].
    exists (S i), t, r, wi. congruence.
Qed.

(** How close to 16.7 a value has to be to be written 16.7. *)
Definition about_16_7 (d : Q) : Prop := (16.65 <= d)%Q /\ (d < 16.75)%Q.




(** ** The batch *)

(** What one call adds to the list of the batch. *)
Definition entry_of (o : outcome) : list string :=
  match o with
  | Return (Some csv_path) => [csv_path]
  | Return None | Raise => []
  end.

Section Batch.

Context {tag : Type} `{Soup tag} `{Vader}.

Lemma batch_step (w : World tag) (url : string) (urls : list string)
    (output_dir : string) :
  generate_csv_for_products w (url :: urls) output_dir
  = let run := generate_csv_from_url w url output_dir in
    let rest := generate_csv_for_products run.2 urls output_dir in
    (entry_of run.1 ++ rest.1, rest.2).
Proof.
  cbn [generate_csv_for_products].
  destruct (generate_csv_from_url w url output_dir) as [o w1] eqn:Erun.
  cbn [fst snd]. destruct (generate_csv_for_products w1 urls output_dir) as [l w2].
  destruct o as [|[p|]]; try reflexivity.
  apply generate_csv_from_url_some in Erun.
  destruct Erun as [_ [_ [_ ->]]]. reflexivity.
Qed.

Lemma batch_app (w : World tag) (urls1 urls2 : list string) (output_dir : string) :
  generate_csv_for_products w (urls1 ++ urls2) output_dir
  = let first := generate_csv_for_products w urls1 output_dir in
    let second := generate_csv_for_products first.2 urls2 output_dir in
    (first.1 ++ second.1, second.2).
Proof.
  revert w. induction urls1 as [|url urls1 IH]; intros w.
  - cbn [app generate_csv_for_products fst snd].
    destruct (generate_csv_for_products w urls2 output_dir); reflexivity.
  - rewrite <- app_comm_cons, !batch_step. cbv zeta. rewrite IH. cbv zeta.
    cbn [fst snd]. rewrite app_assoc. reflexivity.
Qed.

Lemma batch_middle (w : World tag) (before : list string) (url : string)
    (after : list string) (output_dir : string) :
  generate_csv_for_products w (before ++ url :: after) output_dir
  = let first := generate_csv_for_products w before output_dir in
    let run := generate_csv_from_url first.2 url output_dir in
    let rest := generate_csv_for_products run.2 after output_dir in
    (first.1 ++ entry_of run.1 ++ rest.1, rest.2).
Proof.
  rewrite batch_app. cbv zeta. rewrite batch_step. reflexivity.
Qed.

Lemma batch_length (w : World tag) (urls : list string) (output_dir : string) :
  length (generate_csv_for_products w urls output_dir).1 <= length urls.
Proof.
  revert w. induction urls as [|url urls IH]; intros w; [reflexivity |].
  rewrite batch_step. cbv zeta. cbn [fst]. rewrite length_app.
  specialize (IH (generate_csv_from_url w url output_dir).2).
  destruct (generate_csv_from_url w url output_dir).1 as [|[p|]]; simpl; lia.
Qed.

End Batch.

(** C3, as the code has it.  The batch returns the paths of the files
    written, in the order of the URLs, and nothing for a URL whose run
    returns no path or raises: at most one entry per URL, and no pair
    with the URL or a failure.  A run that fails in the middle of the
    batch writes no file and does not stop the batch: the URLs after it
    are run, from the world it leaves, and their paths are returned. *)
Theorem batch_skips_failures {tag : Type} `{Soup tag} `{Vader}
    (w : World tag) (before : list string) (url : string) (after : list string)
    (output_dir : string) :
  let first := generate_csv_for_products w before output_dir in
  let run := generate_csv_from_url first.2 url output_dir in
  let rest := generate_csv_for_products run.2 after output_dir in
  let batch := generate_csv_for_products w (before ++ url :: after) output_dir in
  batch = (first.1 ++ entry_of run.1 ++ rest.1, rest.2)
  /\ length batch.1 <= length (before ++ url :: after)
  /\ (forall path, run.1 = Return (Some path) ->
      files run.2 !! path <> None /\ batch.1 = first.1 ++ path :: rest.1)
  /\ ((forall path, run.1 <> Return (Some path)) ->
      files run.2 = files first.2 /\ batch.1 = first.1 ++ rest.1).
Proof.
  cbv zeta.
  pose proof (batch_middle w before url after output_dir) as Emid.
  cbv zeta in Emid.
  split; [exact Emid |]. split; [apply batch_length |]. rewrite Emid.
  cbn [fst]. clear Emid.
  destruct (generate_csv_from_url
              (generate_csv_for_products w before output_dir).2 url output_dir)
    as [o w1] eqn:Erun.
  cbn [fst snd]. split.
  - intros path ->. split; [| reflexivity].
    apply generate_csv_from_url_some in Erun.
    destruct Erun as [pd [_ [Hfile _]]]. rewrite Hfile. discriminate.
  - intros Hfail. split.
    + apply (generate_csv_from_url_fails _ _ _ _ _ Erun Hfail).
    + destruct o as [|[p|]]; try reflexivity.
      exfalso. exact (Hfail p eq_refl).
Qed.

(** In [Fixture.world] the first URL gives a table and the second a
    challenge page: the batch returns one path for the two URLs. *)
Lemma batch_drops_failed_url :
  let urls := ["https://shop.example/bottle"; "https://shop.example/blocked"] in
  let batch := generate_csv_for_products Fixture.world urls "out" in
  batch.1 = ["out/amazon_reviews_1709280002.csv"]
  /\ length batch.1 <> length urls.
Proof.
  cbv zeta.
  assert ((generate_csv_for_products Fixture.world
             ["https://shop.example/bottle"; "https://shop.example/blocked"]
             "out").1 = ["out/amazon_reviews_1709280002.csv"]) as E
    by (vm_compute; reflexivity).
  rewrite E. split; [reflexivity | discriminate].
Qed.

Lemma batch_skips_failures_witness :
  let before := ["https://shop.example/bottle"] in
  let url := "https://shop.example/blocked" in
  let after := ["https://shop.example/ten"] in
  let first := generate_csv_for_products Fixture.world before "out" in
  let run := generate_csv_from_url first.2 url "out" in
  let rest := generate_csv_for_products run.2 after "out" in
  let batch := generate_csv_for_products Fixture.world (before ++ url :: after) "out" in
  run.1 = Return None
  /\ batch.1 = ["out/amazon_reviews_1709280002.csv"; "out/amazon_reviews_1709280004.csv"]
  /\ batch = (first.1 ++ entry_of run.1 ++ rest.1, rest.2)
  /\ length batch.1 <= length (before ++ url :: after)
  /\ (forall path, run.1 = Return (Some path) ->
      files run.2 !! path <> None /\ batch.1 = first.1 ++ path :: rest.1)
  /\ ((forall path, run.1 <> Return (Some path)) ->
      files run.2 = files first.2 /\ batch.1 = first.1 ++ rest.1).
Proof.
  cbv zeta. split; [vm_compute; reflexivity |]. split; [vm_compute; reflexivity |].
  apply (batch_skips_failures Fixture.world ["https://shop.example/bottle"]
           "https://shop.example/blocked" ["https://shop.example/ten"] "out").
Defined.

(** * Further properties of the code *)

(** ** Strings, continued *)

Lemma append_nil_r (s : string) : s +:+ "" = s.
Proof. induction s as [|c s IH]; simpl; congruence. Qed.

Lemma append_assoc (a b c : string) : (a +:+ b) +:+ c = a +:+ (b +:+ c).
Proof. induction a as [|x a IH]; simpl; congruence. Qed.

Lemma length_append (a b : string) :
  String.length (a +:+ b) = String.length a + String.length b.
Proof. induction a as [|x a IH]; simpl; congruence. Qed.

(** No character of the string is white space. *)
Fixpoint no_space (s : string) : bool :=
  match s with
  | EmptyString => true
  | String c s' => negb (Py.is_space c) && no_space s'
  end.

(** A word: not empty, and without white space. *)
Definition word (s : string) : Prop := Py.truthy s = true /\ no_space s = true.

Lemma no_space_append (a b : string) :
  no_space (a +:+ b) = no_space a && no_space b.
Proof.
  induction a as [|c a IH]; simpl; [reflexivity |].
  rewrite IH, andb_assoc. reflexivity.
Qed.

Lemma truthy_append_char (a : string) (c : ascii) :
  Py.truthy (a +:+ String c "") = true.
Proof. destruct a; reflexivity. Qed.

Lemma split_from_words (s cur : string) :
  no_space cur = true -> Forall word (Py.split_from cur s).
Proof.
  revert cur. induction s as [|c s IH]; intros cur Hcur; simpl.
  - destruct (Py.truthy cur) eqn:E; repeat constructor; assumption.
  - destruct (Py.is_space c) eqn:Ec.
    + destruct (Py.truthy cur) eqn:E.
      * constructor; [split; assumption | apply IH; reflexivity].
      * apply IH. reflexivity.
    + apply IH. rewrite no_space_append, Hcur. simpl. rewrite Ec. reflexivity.
Qed.

Lemma split_words (s : string) : Forall word (Py.split s).
Proof. apply split_from_words. reflexivity. Qed.

(** Reading a word moves it to the run being read. *)
Lemma split_from_word (w cur rest : string) :
  no_space w = true ->
  Py.split_from cur (w +:+ rest) = Py.split_from (cur +:+ w) rest.
Proof.
  revert cur. induction w as [|c w IH]; intros cur Hw; simpl.
  - rewrite append_nil_r. reflexivity.
  - simpl in Hw. apply andb_true_iff in Hw as [Hc Hw].
    apply negb_true_iff in Hc. rewrite Hc, IH by exact Hw.
    rewrite append_assoc. reflexivity.
Qed.

Lemma split_join (ws : list string) :
  Forall word ws -> Py.split (Py.join " " ws) = ws.
Proof.
  unfold Py.split, Py.join. induction 1 as [|w ws [Hne Hw] Hws IH];
    [reflexivity |].
  destruct ws as [|w' ws].
  - simpl. rewrite <- (append_nil_r w) at 1.
    rewrite split_from_word by exact Hw. simpl. rewrite Hne. reflexivity.
  - change (String.concat " " (w :: w' :: ws))
      with (w +:+ String " " (String.concat " " (w' :: ws))).
    rewrite split_from_word by exact Hw. cbn [Py.split_from String.append].
    change (Py.is_space " ") with true. cbv iota. rewrite Hne, IH. reflexivity.
Qed.

(** *** Stripping *)

Lemma rev_string_acc (s acc : string) :
  Py.rev_string acc s = Py.rev_string "" s +:+ acc.
Proof.
  revert acc. induction s as [|c s IH]; intros acc; simpl; [reflexivity |].
  rewrite IH, (IH (String c "")), append_assoc. reflexivity.
Qed.

Lemma rev_string_append (a b : string) :
  Py.rev_string "" (a +:+ b) = Py.rev_string "" b +:+ Py.rev_string "" a.
Proof.
  induction a as [|c a IH]; simpl; [rewrite append_nil_r; reflexivity |].
  rewrite (rev_string_acc (a +:+ b) (String c "")), IH,
    (rev_string_acc a (String c "")), append_assoc.
  reflexivity.
Qed.

Lemma rev_string_involutive (s : string) :
  Py.rev_string "" (Py.rev_string "" s) = s.
Proof.
  induction s as [|c s IH]; simpl; [reflexivity |].
  rewrite (rev_string_acc s (String c "")), rev_string_append, IH. reflexivity.
Qed.

(** A string that is empty, or that neither starts nor ends with white
    space. *)
Definition trimmed (s : string) : Prop :=
  s = ""
  \/ ((exists c s', s = String c s' /\ Py.is_space c = false)
      /\ exists s' c, s = s' +:+ String c "" /\ Py.is_space c = false).

Lemma strip_trimmed (s : string) : trimmed s -> Py.strip s = s.
Proof.
  intros [-> | [[c [s' [-> Hc]]] [t [d [Ht Hd]]]]]; [reflexivity |].
  unfold Py.strip. cbn [Py.lstrip]. rewrite Hc, Ht, rev_string_append.
  cbn [Py.rev_string String.append Py.lstrip]. rewrite Hd.
  change (String d (Py.rev_string "" t))
    with (Py.rev_string "" (String d "") +:+ Py.rev_string "" t).
  rewrite <- rev_string_append. apply rev_string_involutive.
Qed.

Lemma word_last (w : string) :
  word w -> exists s' c, w = s' +:+ String c "" /\ Py.is_space c = false.
Proof.
  intros [Hne Hw]. induction w as [|c w IH]; [discriminate |].
  simpl in Hw. apply andb_true_iff in Hw as [Hc Hw]. apply negb_true_iff in Hc.
  destruct w as [|c' w].
  - exists "", c. split; [reflexivity | exact Hc].
  - destruct (IH eq_refl Hw) as [s' [d [E Hd]]].
    exists (String c s'), d. split; [simpl; congruence | exact Hd].
Qed.

Lemma word_first (w : string) :
  word w -> exists c s', w = String c s' /\ Py.is_space c = false.
Proof.
  intros [Hne Hw]. destruct w as [|c w]; [discriminate |]. simpl in Hw.
  apply andb_true_iff in Hw as [Hc _]. apply negb_true_iff in Hc. eauto.
Qed.

Lemma join_trimmed (ws : list string) :
  Forall word ws -> trimmed (Py.join " " ws).
Proof.
  unfold Py.join. intros Hws. destruct Hws as [|w ws Hw Hws]; [left; reflexivity |].
  right. split.
  - destruct (word_first w Hw) as [c [s' [-> Hc]]].
    destruct ws; [exists c, s'; auto |].
    eexists c, _. split; [| exact Hc]. reflexivity.
  - revert w Hw. induction Hws as [|w' ws Hw' Hws IH]; intros w Hw.
    + apply word_last. exact Hw.
    + destruct (IH w' Hw') as [s' [d [E Hd]]].
      exists (w +:+ String " " s'), d. split; [| exact Hd].
      change (String.concat " " (w :: w' :: ws))
        with (w +:+ String " " (String.concat " " (w' :: ws))).
      rewrite E, append_assoc. reflexivity.
Qed.

(** *** [_clean_text] *)

Lemma concat_empty_cons (w : string) (ws : list string) :
  String.concat "" (w :: ws) = w +:+ String.concat "" ws.
Proof. destruct ws; simpl; [rewrite append_nil_r |]; reflexivity. Qed.

Lemma split_from_content (s cur : string) :
  String.concat "" (Py.split_from cur s) = cur +:+ Py.remove_class Py.is_space s.
Proof.
  revert cur. induction s as [|c s IH]; intros cur; simpl.
  - rewrite append_nil_r. destruct cur; reflexivity.
  - destruct (Py.is_space c).
    + destruct (Py.truthy cur) eqn:E.
      * rewrite concat_empty_cons, IH. reflexivity.
      * destruct cur; [| discriminate]. apply IH.
    + rewrite IH, append_assoc. reflexivity.
Qed.

Lemma remove_space_append (a b : string) :
  Py.remove_class Py.is_space (a +:+ b)
  = Py.remove_class Py.is_space a +:+ Py.remove_class Py.is_space b.
Proof.
  induction a as [|c a IH]; simpl; [reflexivity |].
  destruct (Py.is_space c); simpl; congruence.
Qed.

Lemma remove_space_word (w : string) :
  no_space w = true -> Py.remove_class Py.is_space w = w.
Proof.
  induction w as [|c w IH]; simpl; [reflexivity |].
  intros Hw. apply andb_true_iff in Hw as [Hc Hw]. apply negb_true_iff in Hc.
  rewrite Hc, IH by exact Hw. reflexivity.
Qed.

Lemma remove_space_join (ws : list string) :
  Forall word ws ->
  Py.remove_class Py.is_space (Py.join " " ws) = String.concat "" ws.
Proof.
  unfold Py.join. induction 1 as [|w ws [_ Hw] Hws IH]; [reflexivity |].
  rewrite concat_empty_cons. destruct ws as [|w' ws].
  - simpl. rewrite append_nil_r. apply remove_space_word. exact Hw.
  - change (String.concat " " (w :: w' :: ws))
      with (w +:+ String " " (String.concat " " (w' :: ws))).
    rewrite remove_space_append, remove_space_word by exact Hw.
    cbn [Py.remove_class]. change (Py.is_space " ") with true. cbv iota.
    rewrite IH. reflexivity.
Qed.

Lemma clean_text_join (text : string) :
  _clean_text text = Py.join " " (Py.split text).
Proof.
  unfold _clean_text. destruct text as [|c text]; [reflexivity |].
  cbn [Py.truthy negb]. apply strip_trimmed, join_trimmed, split_words.
Qed.

(** The cleaned text is the words of the text, its maximal runs without
    white space, with one space between two of them: it neither starts
    nor ends with white space, and it keeps every other character, in
    order. *)
Theorem clean_text_words (text : string) :
  _clean_text text = Py.join " " (Py.split text)
  /\ Forall word (Py.split text)
  /\ trimmed (_clean_text text)
  /\ Py.remove_class Py.is_space (_clean_text text)
     = Py.remove_class Py.is_space text.
Proof.
  rewrite clean_text_join. repeat split.
  - apply split_words.
  - apply join_trimmed, split_words.
  - rewrite remove_space_join by apply split_words.
    unfold Py.split. rewrite split_from_content. reflexivity.
Qed.

Lemma clean_join_words (ws : list string) :
  Forall word ws -> _clean_text (Py.join " " ws) = Py.join " " ws.
Proof.
  intros Hws. rewrite clean_text_join, split_join by exact Hws. reflexivity.
Qed.

(** Cleaning a cleaned text changes nothing, and neither does cleaning
    words that are already one space apart. *)
Theorem clean_text_idempotent (text : string) :
  _clean_text (_clean_text text) = _clean_text text
  /\ forall ws, Forall word ws -> _clean_text (Py.join " " ws) = Py.join " " ws.
Proof.
  split; [| apply clean_join_words].
  rewrite (clean_text_join text). apply clean_join_words, split_words.
Qed.

Lemma clean_text_idempotent_witness :
  _clean_text (Py.join " " ["Steel"; "water"; "bottle"]) = "Steel water bottle".
Proof.
  apply (proj2 (clean_text_idempotent "") ["Steel"; "water"; "bottle"]).
  repeat constructor.
Defined.

(** ** The product record *)

Section Record.

Context {tag : Type} `{Soup tag}.

Lemma product_name_cases (soup : tag) :
  (_extract_product_name soup = "Unknown Product"
   /\ Forall (fun selector =>
                match select_one selector soup with
                | Some elem => String.length (_clean_text (get_text elem)) <= 5
                | None => True
                end) name_selectors)
  \/ exists before selector after elem,
       name_selectors = before ++ selector :: after
       /\ select_one selector soup = Some elem
       /\ _extract_product_name soup = _clean_text (get_text elem)
       /\ 5 < String.length (_clean_text (get_text elem)).
Proof.
  unfold _extract_product_name.
  match goal with
  | |- context [for_return ?body name_selectors] =>
      pose proof (for_return_first body name_selectors) as Hfirst;
      destruct (for_return body name_selectors) as [name|]
  end; simpl.
  - right. destruct Hfirst as [before [selector [after [E [Hsel _]]]]].
    destruct (select_one selector soup) as [elem|] eqn:Eelem; [| discriminate].
    destruct (Py.truthy _ && (5 <? _)) eqn:Eok; [| discriminate].
    injection Hsel as <-. apply andb_true_iff in Eok as [_ Hlen].
    apply Nat.ltb_lt in Hlen. exists before, selector, after, elem. auto.
  - left. split; [reflexivity |]. eapply Forall_impl; [exact Hfirst |].
    intros selector Hsel. simpl in Hsel.
    destruct (select_one selector soup) as [elem|]; [| exact I].
    destruct (Py.truthy _ && (5 <? _)) eqn:Eok; [discriminate |].
    apply andb_false_iff in Eok as [Eempty | Elen].
    + destruct (_clean_text (get_text elem)); [simpl; lia | discriminate].
    + apply Nat.ltb_ge in Elen. exact Elen.
Qed.

Lemma usable_clean (soup : tag) (sel : string) :
  Forall (fun p => _clean_text p.1 = p.1) (usable soup sel).
Proof.
  apply Forall_forall. intros [t r] Hin.
  unfold usable in Hin. apply list_elem_of_omap in Hin.
  destruct Hin as [e [_ He]]. apply review_of_elem_long in He.
  destruct He as [_ [Ht _]]. unfold review_text_of in Ht.
  match type of Ht with
  | for_return ?body ?l = _ => pose proof (for_return_first body l) as Hfirst
  end.
  rewrite Ht in Hfirst. destruct Hfirst as [_ [sel' [_ [_ [Hbody _]]]]].
  destruct (select_one sel' e) as [text_elem|]; [| discriminate].
  injection Hbody as <-. simpl.
  rewrite (clean_text_join (get_text text_elem)).
  apply clean_join_words, split_words.
Qed.

End Record.



(** [scrape_product] gives no record in four cases and only then: the
    request raises, the status is not 200, the page is a challenge page,
    or no container selector has a usable review. *)
Theorem scrape_product_none_iff {tag : Type} `{Soup tag}
    (get : string -> response tag) (url : string) :
  scrape_product get url = None
  <-> get url = RequestError
      \/ exists status_code soup,
           get url = Reply status_code soup
           /\ (status_code <> 200%Z
               \/ blocked soup = true
               \/ Forall (fun sel => usable soup sel = []) review_containers).
Proof.
  unfold scrape_product. destruct (get url) as [|status soup].
  - split; [left; reflexivity | reflexivity].
  - destruct (Z.eqb_spec status 200) as [->|Hne]; cbn [negb].
    + destruct (blocked soup) eqn:Hb.
      * split; [| reflexivity]. intros _. right. exists 200%Z, soup. auto.
      * rewrite extract_reviews_first.
        destruct (first_usable_from soup review_containers)
          as [[E Hall] | [b [s [a [Hsels [Hb' [Hne E]]]]]]].
        -- rewrite E. split; [| reflexivity]. intros _. right.
           exists 200%Z, soup. auto.
        -- rewrite E. destruct (usable soup s) as [|p found] eqn:Eu;
             [congruence |].
           split; [discriminate |].
           intros [Hreq | [st [soup' [[= <- <-] [Hst | [Hbl | Hall]]]]]];
             try congruence.
           rewrite Hsels in Hall. apply Forall_app in Hall as [_ Hall].
           apply Forall_cons_1 in Hall as [Hs _]. congruence.
    + split; [| reflexivity]. intros _. right. exists status, soup. auto.
Qed.



(** ** What a run does to the world *)

Section Effects.

Context {tag : Type} `{Soup tag} `{Vader}.

(** The world after [n] rows: one reading of the clock and two random
    numbers for each. *)
Definition after_rows (n : nat) (w : World tag) : World tag :=
  {| get := get w; entropy := entropy w; drawn := 2 * n + drawn w;
     calendar := calendar w; seconds := seconds w; ticks := n + ticks w;
     writable := writable w; files := files w |}.

Lemma make_row_world (product_data : ProductData) (c : nat) (review : string)
    (rating : Q) (w : World tag) :
  (make_row product_data c review rating w).2 = after_rows 1 w.
Proof. reflexivity. Qed.

Lemma build_rows_world (product_data : ProductData) (pairs : list (string * Q))
    (c : nat) (w : World tag) :
  (build_rows product_data pairs c w).2 = after_rows (length pairs) w.
Proof.
  revert c w. induction pairs as [|[review rating] pairs IH]; intros c w.
  - destruct w; reflexivity.
  - cbn [build_rows].
    pose proof (make_row_world product_data c review rating w) as Hrow.
    destruct (make_row product_data c review rating w) as [row w1].
    specialize (IH (S c) w1).
    destruct (build_rows product_data pairs (S c) w1) as [rows w2].
    cbn [snd] in *. subst w1 w2. unfold after_rows. cbn [length].
    cbn [get entropy drawn calendar seconds ticks writable files].
    f_equal; lia.
Qed.

(** The file name of a run that reads the clock at [t]. *)
Definition csv_name (t : Z) : string := "amazon_reviews_" +:+ str_Z t +:+ ".csv".

(** What a run does, by cases on the scraper and on the disk. *)
Lemma run_cases (w : World tag) (product_url output_dir : string) :
  match scrape_product (get w) product_url with
  | None => generate_csv_from_url w product_url output_dir = (Return None, w)
  | Some product_data =>
      let n := length (reviews product_data) in
      let w1 := after_rows n w in
      let path := path_join output_dir (csv_name (seconds w (n + ticks w))) in
      (rows_of product_data w).1 <> []
      /\ generate_csv_from_url w product_url output_dir
         = if writable w path
           then (Return (Some path),
                 write_file path (rows_of product_data w).1 (tick w1))
           else (Return None, tick w1)
  end.
Proof.
  unfold generate_csv_from_url.
  destruct (scrape_product (get w) product_url) as [pd|] eqn:Hscrape;
    [| reflexivity].
  apply scrape_product_some in Hscrape.
  destruct Hscrape as [soup [_ [_ [_ [_ [Hrev [Hrat Hne]]]]]]].
  assert (zip (reviews pd) (ratings pd) = first_usable soup review_containers)
    as Ezip by (rewrite Hrev, Hrat; apply zip_fst_snd).
  assert (length (reviews pd) = length (first_usable soup review_containers))
    as Elen by (rewrite Hrev; apply length_fmap).
  destruct (reviews pd) as [|r rs] eqn:Erev; [congruence |].
  rewrite <- Erev in Ezip, Elen |- *.
  cbv zeta. unfold rows_of. rewrite Ezip.
  pose proof (build_rows_length pd (first_usable soup review_containers) 1 w)
    as Hlen.
  pose proof (build_rows_world pd (first_usable soup review_containers) 1 w)
    as Hworld.
  destruct (build_rows pd (first_usable soup review_containers) 1 w)
    as [rows w1].
  cbn [fst snd] in *. subst w1. rewrite <- Elen in *.
  destruct rows as [|row rows]; [rewrite Erev in Hlen; discriminate |].
  split; [discriminate |]. reflexivity.
Qed.

End Effects.




(** ** The columns of a row *)

Lemma detect_feature_bit (text : option string) (feature : string) :
  detect_feature text feature = 0%Z \/ detect_feature text feature = 1%Z.
Proof.
  destruct text as [[|c s]|]; [left; reflexivity | | left; reflexivity].
  unfold detect_feature. destruct (existsb _ _); auto.
Qed.



(** ** Identifiers *)

Lemma digits_val_uint (d : Decimal.uint) (acc : nat) :
  Py.digits_val (Z.of_nat acc) (NilEmpty.string_of_uint d)
  = Z.of_nat (Nat.of_uint_acc d acc).
Proof.
  revert acc. induction d; intros acc; cbn [NilEmpty.string_of_uint Py.digits_val Nat.of_uint_acc];
    [reflexivity | ..];
    rewrite <- IHd; f_equal; rewrite Nat.tail_mul_spec;
    match goal with
    | |- context [Py.digit_val ?c] =>
        let v := eval vm_compute in (Py.digit_val c) in
        change (Py.digit_val c) with v
    end; lia.
Qed.

(** Reading the decimal writing of a number gives the number back. *)
Lemma digits_val_str_nat (n : nat) : Py.digits_val 0 (str_nat n) = Z.of_nat n.
Proof.
  unfold str_nat. change 0%Z with (Z.of_nat 0).
  rewrite (digits_val_uint (Nat.to_uint n) 0).
  change (Nat.of_uint_acc (Nat.to_uint n) 0) with (Nat.of_uint (Nat.to_uint n)).
  rewrite DecimalNat.Unsigned.of_to. reflexivity.
Qed.

Lemma digits_val_zeros (k : nat) (s : string) :
  Py.digits_val 0 (zeros k +:+ s) = Py.digits_val 0 s.
Proof. induction k as [|k IH]; simpl; [reflexivity | exact IH]. Qed.

Lemma length_zeros (k : nat) : String.length (zeros k) = k.
Proof. induction k as [|k IH]; simpl; congruence. Qed.

Lemma fmt_0d_value (width n : nat) : Py.digits_val 0 (fmt_0d width n) = Z.of_nat n.
Proof. unfold fmt_0d. rewrite digits_val_zeros. apply digits_val_str_nat. Qed.

Lemma fmt_0d_inj (width n m : nat) : fmt_0d width n = fmt_0d width m -> n = m.
Proof.
  intros E. apply Nat2Z.inj. rewrite <- (fmt_0d_value width n), E.
  apply fmt_0d_value.
Qed.

(** The zero-padded format is read back as the number it writes, it has
    at least the width asked for, exactly the width when the number fits,
    and two numbers never share a writing. *)
Theorem fmt_0d_round_trip (width n : nat) :
  Py.digits_val 0 (fmt_0d width n) = Z.of_nat n
  /\ width <= String.length (fmt_0d width n)
  /\ (String.length (str_nat n) <= width ->
      String.length (fmt_0d width n) = width)
  /\ forall m, fmt_0d width n = fmt_0d width m -> n = m.
Proof.
  split; [apply fmt_0d_value |]. unfold fmt_0d at 1 2.
  rewrite length_append, length_zeros.
  split; [lia |]. split; [lia |]. intros m. apply fmt_0d_inj.
Qed.

(** In a table written by a run no two rows share a review identifier,
    nor a product identifier. *)
Theorem identifiers_unique {tag : Type} `{Soup tag} `{Vader}
    (w w' : World tag) (product_url output_dir path : string) :
  generate_csv_from_url w product_url output_dir = (Return (Some path), w') ->
  exists rows,
    files w' !! path = Some rows
    /\ NoDup (Csv.review_id <$> rows)
    /\ NoDup (Csv.product_id <$> rows).
Proof.
  intros Hrun. apply run_rows in Hrun.
  destruct Hrun
    as [soup [pd [rows [_ [_ [_ [_ [_ [Hfile [Hlen [_ Hrows]]]]]]]]]]].
  exists rows. split; [exact Hfile |].
  assert (forall i row, rows !! i = Some row ->
            Csv.review_id row = "R" +:+ fmt_0d 6 (S i)
            /\ Csv.product_id row = "B0" +:+ fmt_0d 8 (S i)) as Hids.
  { intros i row Hi.
    assert (i < length (first_usable soup review_containers)) as Hlt
      by (rewrite <- Hlen; eapply lookup_lt_Some; exact Hi).
    apply lookup_lt_is_Some in Hlt. destruct Hlt as [[t r] E].
    destruct (Hrows i t r E) as [wi Hwi].
    rewrite Hwi in Hi. injection Hi as <-. split; reflexivity. }
  split; apply NoDup_alt; intros i j x Hi Hj;
    rewrite list_lookup_fmap in Hi, Hj;
    destruct (rows !! i) as [ri|] eqn:Ei; try discriminate;
    destruct (rows !! j) as [rj|] eqn:Ej; try discriminate;
    injection Hi as Hi; injection Hj as Hj;
    destruct (Hids i ri Ei) as [Hri Hpi]; destruct (Hids j rj Ej) as [Hrj Hpj].
  - rewrite Hri in Hi. rewrite Hrj in Hj. rewrite <- Hj in Hi.
    injection Hi as Hi. apply fmt_0d_inj in Hi. lia.
  - rewrite Hpi in Hi. rewrite Hpj in Hj. rewrite <- Hj in Hi.
    injection Hi as Hi. apply fmt_0d_inj in Hi. lia.
Qed.

Lemma identifiers_unique_witness :
  let run := generate_csv_from_url Fixture.world "https://shop.example/bottle" "out" in
  exists rows,
    files run.2 !! "out/amazon_reviews_1709280002.csv" = Some rows
    /\ NoDup (Csv.review_id <$> rows)
    /\ NoDup (Csv.product_id <$> rows).
Proof.
  cbv zeta.
  apply (identifiers_unique Fixture.world _ "https://shop.example/bottle" "out"
           "out/amazon_reviews_1709280002.csv").
  vm_compute. reflexivity.
Defined.

(** ** Files *)

Section Files.

Context {tag : Type} `{Soup tag} `{Vader}.

Lemma run_keeps_files (w : World tag) (product_url output_dir p : string) :
  is_Some (files w !! p) ->
  is_Some (files (generate_csv_from_url w product_url output_dir).2 !! p).
Proof.
  intros Hp. pose proof (run_cases w product_url output_dir) as Hcases.
  destruct (scrape_product (get w) product_url) as [pd|].
  - cbv zeta in Hcases. destruct Hcases as [_ ->].
    destruct (writable w _); cbn [snd write_file tick after_rows files];
      [| exact Hp].
    rewrite lookup_insert. case_decide; [eauto | exact Hp].
  - rewrite Hcases. exact Hp.
Qed.

Lemma batch_keeps_files (w : World tag) (urls : list string) (output_dir p : string) :
  is_Some (files w !! p) ->
  is_Some (files (generate_csv_for_products w urls output_dir).2 !! p).
Proof.
  revert w. induction urls as [|url urls IH]; intros w Hp; [exact Hp |].
  rewrite batch_step. cbv zeta. cbn [snd]. apply IH, run_keeps_files, Hp.
Qed.

Lemma run_path_written (w : World tag) (product_url output_dir path : string) :
  (generate_csv_from_url w product_url output_dir).1 = Return (Some path) ->
  is_Some (files (generate_csv_from_url w product_url output_dir).2 !! path).
Proof.
  destruct (generate_csv_from_url w product_url output_dir) as [o w'] eqn:Erun.
  cbn [fst snd]. intros ->. apply generate_csv_from_url_some in Erun.
  destruct Erun as [pd [_ [Hfile _]]]. rewrite Hfile. eauto.
Qed.

Lemma batch_paths_written (w : World tag) (urls : list string) (output_dir : string) :
  Forall (fun path =>
            is_Some (files (generate_csv_for_products w urls output_dir).2 !! path))
    (generate_csv_for_products w urls output_dir).1.
Proof.
  revert w. induction urls as [|url urls IH]; intros w; [constructor |].
  rewrite batch_step. cbv zeta. cbn [fst snd]. apply Forall_app. split; [| apply IH].
  destruct (generate_csv_from_url w url output_dir).1 as [|[path|]] eqn:Eo;
    cbn [entry_of]; constructor; [| constructor].
  apply batch_keeps_files, run_path_written, Eo.
Qed.

End Files.

(** The batch deletes no file, and every path it returns names a file of
    the world it leaves. *)
Theorem batch_paths_exist {tag : Type} `{Soup tag} `{Vader}
    (w : World tag) (urls : list string) (output_dir : string) :
  let batch := generate_csv_for_products w urls output_dir in
  Forall (fun path => is_Some (files batch.2 !! path)) batch.1
  /\ forall p, is_Some (files w !! p) -> is_Some (files batch.2 !! p).
Proof.
  cbv zeta. split; [apply batch_paths_written | intros p; apply batch_keeps_files].
Qed.

(** ** Rounding *)

Lemma pow10_pos (nd : nat) : (0 < inject_Z (10 ^ Z.of_nat nd))%Q.
Proof.
  change 0%Q with (inject_Z 0). rewrite <- Zlt_Qlt. apply Z.pow_pos_nonneg; lia.
Qed.

Lemma py_round_scaled (x : Q) (nd : nat) :
  exists n : Z,
    py_round x nd = (inject_Z n / inject_Z (10 ^ Z.of_nat nd))%Q
    /\ (-(1#2) <= inject_Z n - x * inject_Z (10 ^ Z.of_nat nd) <= 1#2)%Q.
Proof.
  unfold py_round. set (s := inject_Z (10 ^ Z.of_nat nd)).
  set (y := (x * s)%Q). set (f := Qfloor y).
  pose proof (Qfloor_le y) as Hlo. pose proof (Qlt_floor y) as Hhi.
  fold f in Hlo, Hhi. rewrite inject_Z_plus in Hhi.
  change (inject_Z 1) with 1%Q in Hhi.
  destruct (Qlt_bool (y - inject_Z f) 0.5) eqn:E1.
  - exists f. split; [reflexivity |]. apply Qlt_bool_iff in E1. lra.
  - destruct (Qlt_bool 0.5 (y - inject_Z f)) eqn:E2.
    + exists (f + 1)%Z. split; [reflexivity |]. apply Qlt_bool_iff in E2.
      rewrite inject_Z_plus. change (inject_Z 1) with 1%Q. lra.
    + assert (~ (y - inject_Z f < 0.5)%Q) as H1
        by (intros Hc; apply Qlt_bool_iff in Hc; congruence).
      assert (~ (0.5 < y - inject_Z f)%Q) as H2
        by (intros Hc; apply Qlt_bool_iff in Hc; congruence).
      destruct (Z.even f).
      * exists f. split; [reflexivity |]. lra.
      * exists (f + 1)%Z. split; [reflexivity |].
        rewrite inject_Z_plus. change (inject_Z 1) with 1%Q. lra.
Qed.

Lemma py_round_close (x : Q) (nd : nat) :
  (Qabs (py_round x nd - x) <= 1 / (2 * inject_Z (10 ^ Z.of_nat nd)))%Q.
Proof.
  destruct (py_round_scaled x nd) as [n [-> [Hlo Hhi]]].
  pose proof (pow10_pos nd) as Hs. set (s := inject_Z (10 ^ Z.of_nat nd)) in *.
  assert (~ s == 0)%Q as Hne by lra.
  assert (inject_Z n / s - x == (inject_Z n - x * s) / s)%Q as E by (field; exact Hne).
  rewrite E. apply Qabs_Qle_condition.
  assert (0 < / s)%Q as Hinv by (apply Qinv_lt_0_compat; exact Hs).
  assert (1 / (2 * s) == (1#2) * / s)%Q as E2 by (field; exact Hne).
  rewrite E2. unfold Qdiv. split.
  - assert (- ((1 # 2) * / s) == (- (1 # 2)) * / s)%Q as E3 by ring.
    rewrite E3. apply Qmult_le_compat_r; [exact Hlo | lra].
  - apply Qmult_le_compat_r; [exact Hhi | lra].
Qed.

Lemma py_round_fixed (n : Z) (nd : nat) :
  py_round (inject_Z n / inject_Z (10 ^ Z.of_nat nd)) nd
  = (inject_Z n / inject_Z (10 ^ Z.of_nat nd))%Q.
Proof.
  pose proof (pow10_pos nd) as Hs. unfold py_round.
  set (s := inject_Z (10 ^ Z.of_nat nd)) in *.
  assert (~ s == 0)%Q as Hne by lra.
  assert (inject_Z n / s * s == inject_Z n)%Q as Ey by (field; exact Hne).
  assert (Qfloor (inject_Z n / s * s) = n) as Ef
    by (rewrite (Qfloor_comp _ _ Ey); apply Qfloor_Z).
  rewrite Ef.
  assert (Qlt_bool (inject_Z n / s * s - inject_Z n) 0.5 = true) as ->
    by (apply Qlt_bool_iff; lra).
  reflexivity.
Qed.


(** ** The number pattern *)

Fixpoint all_chars (p : ascii -> bool) (s : string) : bool :=
  match s with
  | EmptyString => true
  | String c s' => p c && all_chars p s'
  end.

Definition starts_digit (s : string) : bool :=
  match s with
  | String c _ => Py.is_digit c
  | EmptyString => false
  end.

Definition non_digit (c : ascii) : bool := negb (Py.is_digit c).

Lemma span_digits_spec (s : string) :
  s = (Py.span_digits s).1 +:+ (Py.span_digits s).2
  /\ all_chars Py.is_digit (Py.span_digits s).1 = true
  /\ starts_digit (Py.span_digits s).2 = false.
Proof.
  induction s as [|c s [IH1 [IH2 IH3]]]; [repeat split |].
  cbn [Py.span_digits]. destruct (Py.is_digit c) eqn:Ec.
  - destruct (Py.span_digits s) as [d r]. cbn [fst snd] in *.
    repeat split; [simpl; congruence | simpl; rewrite Ec; exact IH2 | exact IH3].
  - cbn [fst snd]. repeat split. simpl. exact Ec.
Qed.

(** The shape of a match of the pattern at the start of [s]: digits
    [d], not empty, then either nothing, or a dot and digits [f]; [rest]
    is what follows the match, and the match is as long as it can be. *)
Definition matches_number (tok s : string) : Prop :=
  exists d rest,
    Py.truthy d = true /\ all_chars Py.is_digit d = true
    /\ ((tok = d /\ s = d +:+ rest /\ starts_digit rest = false
         /\ Py.starts_with "." rest = false)
        \/ exists f, tok = d +:+ "." +:+ f /\ s = tok +:+ rest
                     /\ all_chars Py.is_digit f = true
                     /\ starts_digit rest = false).

Lemma number_here_spec (s : string) :
  starts_digit s = true -> matches_number (Py.number_here s) s.
Proof.
  intros Hs. unfold Py.number_here, matches_number.
  destruct (span_digits_spec s) as [E [Hd Hr]].
  destruct (Py.span_digits s) as [d r]. cbn [fst snd] in *.
  assert (Py.truthy d = true) as Hne.
  { destruct d; [| reflexivity]. simpl in E. subst r. congruence. }
  destruct r as [|c r'].
  - exists d, "". repeat split; try assumption. left. auto.
  - destruct (Ascii.eqb_spec c ".") as [->|Hc].
    + destruct (span_digits_spec r') as [E' [Hf Hr']].
      destruct (Py.span_digits r') as [f rest]. cbn [fst snd] in *.
      exists d, rest. repeat split; try assumption. right. exists f.
      repeat split; try assumption.
      rewrite E, E', !append_assoc. reflexivity.
    + assert (Py.starts_with "." (String c r') = false) as Hdot.
      { cbn [Py.starts_with]. destruct (Ascii.eqb "." c) eqn:Eq; [| reflexivity].
        apply Ascii.eqb_eq in Eq. congruence. }
      assert (match String c r' with
              | String "."%char r'0 =>
                  let (f, _) := Py.span_digits r'0 in d +:+ String "."%char f
              | _ => d
              end = d) as ->.
      { destruct c as [[] [] [] [] [] [] [] []]; try reflexivity. congruence. }
      exists d, (String c r'). repeat split; try assumption. left. auto.
Qed.

(** [search_number] finds nothing exactly in a text without a digit.
    What it finds starts at the first digit of the text and is the
    longest match of the pattern there: the digits, and, when a dot
    follows them, the dot and the digits after it. *)
Theorem search_number_leftmost (s : string) :
  (Py.search_number s = None <-> all_chars non_digit s = true)
  /\ forall tok,
       Py.search_number s = Some tok ->
       exists before rest,
         s = before +:+ rest
         /\ all_chars non_digit before = true
         /\ matches_number tok rest.
Proof.
  induction s as [|c s [IHnone IHsome]].
  - split; [split; reflexivity | discriminate].
  - cbn [Py.search_number all_chars]. unfold non_digit at 1.
    destruct (Py.is_digit c) eqn:Ec; cbn [negb andb].
    + split; [split; discriminate |].
      intros tok [= <-]. exists "", (String c s).
      repeat split. apply number_here_spec. exact Ec.
    + split; [exact IHnone |].
      intros tok Htok. destruct (IHsome tok Htok) as [before [rest [-> [Hb Hm]]]].
      exists (String c before), rest. repeat split; [| exact Hm].
      cbn [all_chars]. unfold non_digit at 1. rewrite Ec. exact Hb.
Qed.

Lemma search_number_leftmost_witness :
  Py.search_number (Py.remove_class price_noise "$1,299.50 only") = Some "1299.50"
  /\ exists before rest,
       Py.remove_class price_noise "$1,299.50 only" = before +:+ rest
       /\ all_chars non_digit before = true
       /\ matches_number "1299.50" rest.
Proof.
  split; [reflexivity |].
  apply (proj2 (search_number_leftmost (Py.remove_class price_noise "$1,299.50 only"))).
  reflexivity.
Defined.

(** ** Case and context in the feature tagger *)

Lemma lower_char_idempotent (c : ascii) :
  Py.lower_char (Py.lower_char c) = Py.lower_char c.
Proof. destruct c as [[] [] [] [] [] [] [] []]; reflexivity. Qed.

Lemma lower_idempotent (s : string) : Py.lower (Py.lower s) = Py.lower s.
Proof.
  induction s as [|c s IH]; simpl; [reflexivity |].
  rewrite lower_char_idempotent, IH. reflexivity.
Qed.

Lemma lower_append (a b : string) :
  Py.lower (a +:+ b) = Py.lower a +:+ Py.lower b.
Proof. induction a as [|c a IH]; simpl; congruence. Qed.

Lemma substring_of_context (sub s a b : string) :
  substring_of sub s -> substring_of sub (a +:+ s +:+ b).
Proof.
  intros [x [y ->]]. exists (a +:+ x), (y +:+ b).
  rewrite !append_assoc. reflexivity.
Qed.

Lemma detect_feature_some (c : ascii) (s feature : string) :
  detect_feature (Some (String c s)) feature
  = if existsb (fun kw => Py.contains kw (Py.lower (String c s)))
         (default [] (keywords !! feature))
    then 1%Z else 0%Z.
Proof. reflexivity. Qed.

(** The tagger does not see the case of the text, for any feature name:
    a text and its lower-cased form get the same flag.  A flag raised on a
    text stays raised when text is added before or after it. *)
Theorem detect_feature_case_and_context (s feature : string) :
  detect_feature (Some (Py.lower s)) feature = detect_feature (Some s) feature
  /\ forall a b,
       detect_feature (Some s) feature = 1%Z ->
       detect_feature (Some (a +:+ s +:+ b)) feature = 1%Z.
Proof.
  split.
  - destruct s as [|c s]; [reflexivity |]. cbn [Py.lower].
    rewrite !detect_feature_some.
    change (String (Py.lower_char c) (Py.lower s)) with (Py.lower (String c s)).
    rewrite lower_idempotent. reflexivity.
  - intros a b. destruct s as [|c s]; [discriminate |].
    rewrite detect_feature_some.
    destruct (existsb _ _) eqn:E; [intros _ | discriminate].
    apply any_keyword_spec in E. destruct E as [kw [Hin Hsub]].
    assert (existsb (fun kw => Py.contains kw (Py.lower (a +:+ String c s +:+ b)))
              (default [] (keywords !! feature)) = true) as E'.
    { apply any_keyword_spec. exists kw. split; [exact Hin |].
      rewrite !lower_append. apply substring_of_context. exact Hsub. }
    destruct (a +:+ String c s +:+ b) as [|c' t] eqn:Et.
    + destruct a; discriminate.
    + rewrite detect_feature_some, E'. reflexivity.
Qed.

Lemma detect_feature_case_and_context_witness :
  detect_feature (Some ("Really " +:+ "FAST DELIVERY" +:+ ", thanks")) "delivery" = 1%Z.
Proof.
  apply (proj2 (detect_feature_case_and_context "FAST DELIVERY" "delivery")
           "Really " ", thanks").
  reflexivity.
Defined.

(** * The front end: [app_complete.py]

    Of the Flask application the model keeps what computes: the reading
    of the URL field and the loop over the URLs in [index], and
    [run_notebook_and_generate_csv].  Sessions, templates, the
    clean-up thread and the reading of the files are left out. *)

Module App.

(** [s.replace(a, b)] for strings of one character. *)
Fixpoint replace_char (a b : ascii) (s : string) : string :=
  match s with
  | EmptyString => EmptyString
  | String c s' =>
      String (if Ascii.eqb c a then b else c) (replace_char a b s')
  end.

(** [s.split(sep)] for a separator of one character: the pieces between
    the separators, the empty ones too.  [cur] is the piece being read. *)
Fixpoint split_on_from (sep : ascii) (cur s : string) : list string :=
  match s with
  | EmptyString => [cur]
  | String c s' =>
      if Ascii.eqb c sep then cur :: split_on_from sep EmptyString s'
      else split_on_from sep (cur +:+ String c EmptyString) s'
  end.

Definition split_on (sep : ascii) (s : string) : list string :=
  split_on_from sep EmptyString s.

Definition newline : ascii := ascii_of_nat 10.

(** The comprehension of [index]: line breaks and semicolons count as
    commas, each piece is stripped and the empty ones are dropped. *)
Definition parse_urls (urls_raw : string) : list string :=
  omap (fun url => if Py.truthy (Py.strip url) then Some (Py.strip url) else None)
       (split_on "," (replace_char ";" "," (replace_char newline "," urls_raw))).

(** How [index] answers the field [product_urls] of the form, before it
    runs anything: two error flashes, or the URLs to process. *)
Inductive intake : Type :=
  | NoUrl            (* Please enter at least one Amazon product URL. *)
  | InvalidFormat    (* Invalid URL format. Please check your input. *)
  | Accepted (urls : list string).

Definition read_form (product_urls : option string) : intake :=
  let urls_raw := Py.strip (default "" product_urls) in
  if negb (Py.truthy urls_raw) then NoUrl
  else
    match parse_urls urls_raw with
    | [] => InvalidFormat
    | urls => Accepted urls
    end.

(** [os.path.basename(p)]: what follows the last slash. *)
Fixpoint basename_from (cur s : string) : string :=
  match s with
  | EmptyString => cur
  | String c s' =>
      if Ascii.eqb c "/" then basename_from EmptyString s'
      else basename_from (cur +:+ String c EmptyString) s'
  end.

Definition basename (p : string) : string := basename_from EmptyString p.

Inductive status : Type := success | failed.

(** An entry of [csv_results]; a key the dictionary does not have is
    [None]. *)
Record result := {
  url : string;
  filename : option string;
  path : option string;
  result_status : status;
  error : option string
}.

Section Index.

Context {tag : Type} `{Soup tag} `{Vader}.

(** The pipeline is called under a [try] that turns an exception into
    [None]. *)
Definition run_notebook_and_generate_csv (w : World tag)
    (product_url output_dir : string) : option string * World tag :=
  match generate_csv_from_url w product_url output_dir with
  | (Return csv_path, w') => (csv_path, w')
  | (Raise, w') => (None, w')
  end.

(** [os.path.exists(p)], on a disk that holds the tables written. *)
Definition path_exists (w : World tag) (p : string) : bool :=
  bool_decide (is_Some (files w !! p)).

Definition failed_entry (u : string) : result :=
  {| url := u; filename := None; path := None; result_status := failed;
     error := Some "Pipeline returned None" |}.

(** The body of the loop of [index] over the URLs. *)
Definition process_url (w : World tag) (u session_dir : string)
  : result * World tag :=
  let '(csv_path, w) := run_notebook_and_generate_csv w u session_dir in
  (match csv_path with
   | Some p =>
       if Py.truthy p && path_exists w p
       then {| url := u; filename := Some (basename p); path := Some p;
               result_status := success; error := None |}
       else failed_entry u
   | None => failed_entry u
   end, w).

Fixpoint process_urls (w : World tag) (urls : list string) (session_dir : string)
  : list result * World tag :=
  match urls with
  | [] => ([], w)
  | u :: urls' =>
      let '(entry, w) := process_url w u session_dir in
      let '(csv_results, w) := process_urls w urls' session_dir in
      (entry :: csv_results, w)
  end.

End Index.

End App.

(** ** Stripping, continued *)

Lemma lstrip_cases (s : string) :
  Py.lstrip s = ""
  \/ exists c s', Py.lstrip s = String c s' /\ Py.is_space c = false.
Proof.
  induction s as [|c s IH]; [left; reflexivity |].
  cbn [Py.lstrip]. destruct (Py.is_space c) eqn:Ec; [exact IH |].
  right. exists c, s. auto.
Qed.

Lemma lstrip_append (a b : string) (c : ascii) :
  Py.is_space c = false ->
  Py.lstrip (a +:+ String c b) = Py.lstrip a +:+ String c b.
Proof.
  intros Hc. induction a as [|x a IH]; simpl; [rewrite Hc; reflexivity |].
  destruct (Py.is_space x); [exact IH | reflexivity].
Qed.

Lemma rev_string_cons (c : ascii) (s : string) :
  Py.rev_string "" (String c s) = Py.rev_string "" s +:+ String c "".
Proof. simpl. apply rev_string_acc. Qed.

Lemma strip_trims (s : string) : trimmed (Py.strip s).
Proof.
  unfold Py.strip.
  destruct (lstrip_cases s) as [-> | [c [q [-> Hc]]]]; [left; reflexivity |].
  right. rewrite rev_string_cons, (lstrip_append _ "" c Hc).
  rewrite rev_string_append. cbn [Py.rev_string String.append]. split.
  - eauto.
  - destruct (lstrip_cases (Py.rev_string "" q)) as [-> | [d [r [-> Hd]]]].
    + exists "", c. auto.
    + rewrite rev_string_cons. exists (String c (Py.rev_string "" r)), d. auto.
Qed.

Lemma all_chars_append (p : ascii -> bool) (a b : string) :
  all_chars p (a +:+ b) = all_chars p a && all_chars p b.
Proof.
  induction a as [|c a IH]; simpl; [reflexivity |].
  rewrite IH, andb_assoc. reflexivity.
Qed.

Lemma all_chars_rev (p : ascii -> bool) (s acc : string) :
  all_chars p (Py.rev_string acc s) = all_chars p s && all_chars p acc.
Proof.
  revert acc. induction s as [|c s IH]; intros acc; simpl; [reflexivity |].
  rewrite IH. simpl. destruct (p c), (all_chars p s), (all_chars p acc); reflexivity.
Qed.

Lemma all_chars_lstrip (p : ascii -> bool) (s : string) :
  all_chars p s = true -> all_chars p (Py.lstrip s) = true.
Proof.
  induction s as [|c s IH]; [reflexivity |]. intros Hs. cbn [Py.lstrip].
  destruct (Py.is_space c); [| exact Hs].
  simpl in Hs. apply andb_true_iff in Hs as [_ Hs]. apply IH, Hs.
Qed.

Lemma all_chars_strip (p : ascii -> bool) (s : string) :
  all_chars p s = true -> all_chars p (Py.strip s) = true.
Proof.
  intros Hs. unfold Py.strip. rewrite all_chars_rev, andb_true_r.
  apply all_chars_lstrip. rewrite all_chars_rev, andb_true_r.
  apply all_chars_lstrip, Hs.
Qed.

(** ** The URL field *)

(** A character that separates URLs in the field. *)
Definition separator (c : ascii) : bool :=
  Ascii.eqb c "," || Ascii.eqb c ";" || Ascii.eqb c App.newline.

Definition not_separator (c : ascii) : bool := negb (separator c).

Lemma split_on_pieces (p : ascii -> bool) (sep : ascii) (s cur : string) :
  all_chars (fun c => Ascii.eqb c sep || p c) s = true ->
  (forall c, p c = true -> Ascii.eqb c sep = false) ->
  all_chars p cur = true ->
  Forall (fun piece => all_chars p piece = true) (App.split_on_from sep cur s).
Proof.
  intros Hs Hp. revert cur Hs.
  induction s as [|c s IH]; intros cur Hs Hcur; simpl.
  - constructor; [exact Hcur | constructor].
  - simpl in Hs. apply andb_true_iff in Hs as [Hc Hs].
    destruct (Ascii.eqb c sep) eqn:Ec.
    + constructor; [exact Hcur | apply IH; [exact Hs | reflexivity]].
    + apply IH; [exact Hs |]. rewrite all_chars_append, Hcur. simpl.
      simpl in Hc. rewrite Hc. reflexivity.
Qed.

Lemma replaced_chars (s : string) :
  all_chars (fun c => Ascii.eqb c "," || not_separator c)
    (App.replace_char ";" "," (App.replace_char App.newline "," s)) = true.
Proof.
  induction s as [|c s IH]; [reflexivity |].
  cbn [App.replace_char all_chars]. rewrite IH, andb_true_r.
  unfold not_separator, separator.
  destruct (Ascii.eqb c App.newline) eqn:E1; [reflexivity |].
  destruct (Ascii.eqb c ";") eqn:E2; [reflexivity |]. cbn [Ascii.eqb].
  rewrite E1, E2. destruct (Ascii.eqb c ","); reflexivity.
Qed.

Lemma parse_urls_pieces (urls_raw : string) :
  Forall (fun u => Py.truthy u = true /\ Py.strip u = u
                   /\ all_chars not_separator u = true)
    (App.parse_urls urls_raw).
Proof.
  unfold App.parse_urls, App.split_on.
  set (t := App.replace_char ";" "," (App.replace_char App.newline "," urls_raw)).
  assert (Forall (fun piece => all_chars not_separator piece = true)
            (App.split_on_from "," "" t)) as Hpieces.
  { apply split_on_pieces; [apply replaced_chars | | reflexivity].
    intros c Hc. unfold not_separator, separator in Hc.
    destruct (Ascii.eqb c ","); [discriminate | reflexivity]. }
  apply Forall_forall. intros u Hu. apply list_elem_of_omap in Hu.
  destruct Hu as [piece [Hin Hu]]. rewrite Forall_forall in Hpieces.
  specialize (Hpieces piece Hin).
  destruct (Py.truthy (Py.strip piece)) eqn:Hne; [| discriminate].
  injection Hu as <-. repeat split.
  - exact Hne.
  - apply strip_trimmed, strip_trims.
  - apply all_chars_strip, Hpieces.
Qed.

Lemma split_on_no_separator (u cur : string) :
  all_chars not_separator u = true ->
  App.split_on_from ","
    cur (App.replace_char ";" "," (App.replace_char App.newline "," u))
  = [cur +:+ u].
Proof.
  revert cur. induction u as [|c u IH]; intros cur Hu.
  - simpl. rewrite append_nil_r. reflexivity.
  - cbn [all_chars] in Hu. apply andb_true_iff in Hu as [Hc Hu].
    unfold not_separator, separator in Hc. apply negb_true_iff in Hc.
    apply orb_false_elim in Hc as [Hc Hnl]. apply orb_false_elim in Hc as [Hcomma Hsemi].
    cbn [App.replace_char]. rewrite Hnl, Hsemi. cbn [App.split_on_from].
    rewrite Hcomma, IH by exact Hu. rewrite append_assoc. reflexivity.
Qed.



(** ** File names *)

Definition no_slash (c : ascii) : bool := negb (Ascii.eqb c "/").

Lemma all_chars_impl (p q : ascii -> bool) (s : string) :
  (forall c, p c = true -> q c = true) ->
  all_chars p s = true -> all_chars q s = true.
Proof.
  intros Hpq. induction s as [|c s IH]; [reflexivity |]. simpl.
  intros Hs. apply andb_true_iff in Hs as [Hc Hs].
  rewrite (Hpq c Hc), (IH Hs). reflexivity.
Qed.

Lemma string_of_uint_digits (d : Decimal.uint) :
  all_chars Py.is_digit (NilEmpty.string_of_uint d) = true.
Proof. induction d; simpl; [reflexivity | ..]; exact IHd. Qed.

Lemma digit_no_slash (c : ascii) : Py.is_digit c = true -> no_slash c = true.
Proof. destruct c as [[] [] [] [] [] [] [] []]; (reflexivity || discriminate). Qed.

Lemma str_Z_no_slash (t : Z) : all_chars no_slash (str_Z t) = true.
Proof.
  unfold str_Z. destruct (Z.to_int t) as [d|d]; cbn [NilEmpty.string_of_int].
  - apply (all_chars_impl Py.is_digit); [apply digit_no_slash |].
    apply string_of_uint_digits.
  - cbn [all_chars]. apply andb_true_iff. split; [reflexivity |].
    apply (all_chars_impl Py.is_digit); [apply digit_no_slash |].
    apply string_of_uint_digits.
Qed.

Lemma csv_name_no_slash (t : Z) : all_chars no_slash (csv_name t) = true.
Proof.
  unfold csv_name. rewrite !all_chars_append, str_Z_no_slash. reflexivity.
Qed.

Lemma basename_from_plain (s cur : string) :
  all_chars no_slash s = true -> App.basename_from cur s = cur +:+ s.
Proof.
  revert cur. induction s as [|c s IH]; intros cur Hs; simpl.
  - rewrite append_nil_r. reflexivity.
  - simpl in Hs. apply andb_true_iff in Hs as [Hc Hs].
    unfold no_slash in Hc. apply negb_true_iff in Hc.
    rewrite Hc, IH by exact Hs. rewrite append_assoc. reflexivity.
Qed.

Lemma basename_from_slash (a b cur : string) :
  App.basename_from cur (a +:+ String "/" b) = App.basename_from "" b.
Proof.
  revert cur. induction a as [|c a IH]; intros cur; [reflexivity |].
  cbn [String.append App.basename_from]. destruct (Ascii.eqb c "/"); apply IH.
Qed.

(** The base name of a path the pipeline builds is the file name. *)
Lemma basename_path_join (output_dir filename : string) :
  all_chars no_slash filename = true ->
  App.basename (path_join output_dir filename) = filename.
Proof.
  intros Hf. unfold App.basename, path_join.
  destruct (negb (Py.truthy output_dir)); [apply (basename_from_plain _ "" Hf) |].
  destruct (Py.starts_with "/" (Py.rev_string "" output_dir)) eqn:Eslash.
  - apply starts_with_spec in Eslash. destruct Eslash as [b Eb].
    assert (output_dir = Py.rev_string "" b +:+ String "/" "") as ->.
    { rewrite <- (rev_string_involutive output_dir), Eb.
      cbn [String.append]. apply rev_string_cons. }
    rewrite append_assoc. cbn [String.append].
    rewrite basename_from_slash. apply (basename_from_plain _ "" Hf).
  - cbn [String.append]. rewrite basename_from_slash.
    apply (basename_from_plain _ "" Hf).
Qed.

(** ** The loop of [index] *)

Section IndexFacts.

Context {tag : Type} `{Soup tag} `{Vader}.

(** One URL: the entry says success exactly when the pipeline returned a
    path, and the world is the one the pipeline leaves. *)
Lemma process_url_cases (w : World tag) (u session_dir : string) :
  let run := generate_csv_from_url w u session_dir in
  (App.process_url w u session_dir).2 = run.2
  /\ ((exists t,
         run.1 = Return (Some (path_join session_dir (csv_name t)))
         /\ (App.process_url w u session_dir).1
            = {| App.url := u; App.filename := Some (csv_name t);
                 App.path := Some (path_join session_dir (csv_name t));
                 App.result_status := App.success; App.error := None |})
      \/ ((forall p, run.1 <> Return (Some p))
          /\ (App.process_url w u session_dir).1 = App.failed_entry u)).
Proof.
  cbv zeta. unfold App.process_url, App.run_notebook_and_generate_csv.
  pose proof (run_cases w u session_dir) as Hcases.
  pose proof (run_path_written w u session_dir) as Hwritten.
  destruct (scrape_product (get w) u) as [pd|].
  - cbv zeta in Hcases. destruct Hcases as [_ Hrun].
    rewrite Hrun in Hwritten |- *.
    destruct (writable w _) eqn:Ew; cbn [fst snd] in *.
    + split; [reflexivity |]. left. eexists. split; [reflexivity |].
      specialize (Hwritten _ eq_refl).
      assert (Py.truthy (path_join session_dir
                (csv_name (seconds w (length (reviews pd) + ticks w)))) = true)
        as ->.
      { unfold path_join. destruct (negb (Py.truthy session_dir)) eqn:E;
          [reflexivity |].
        apply negb_false_iff in E. destruct session_dir; [discriminate |].
        destruct (Py.starts_with _ _); reflexivity. }
      unfold App.path_exists. rewrite bool_decide_eq_true_2 by exact Hwritten.
      cbn [andb]. rewrite basename_path_join by apply csv_name_no_slash.
      reflexivity.
    + split; [reflexivity |]. right. split; [discriminate | reflexivity].
  - rewrite Hcases. cbn [fst snd]. split; [reflexivity |]. right.
    split; [discriminate | reflexivity].
Qed.

Lemma process_urls_step (w : World tag) (u : string) (urls : list string)
    (session_dir : string) :
  App.process_urls w (u :: urls) session_dir
  = let first := App.process_url w u session_dir in
    let rest := App.process_urls first.2 urls session_dir in
    (first.1 :: rest.1, rest.2).
Proof.
  cbn [App.process_urls]. destruct (App.process_url w u session_dir) as [e w1].
  cbn [fst snd]. destruct (App.process_urls w1 urls session_dir). reflexivity.
Qed.

Lemma omap_cons {A B : Type} (f : A -> option B) (x : A) (l : list A) :
  omap f (x :: l)
  = match f x with Some y => y :: omap f l | None => omap f l end.
Proof. reflexivity. Qed.

(** The loop and the batch go through the same runs. *)
Lemma process_urls_batch (w : World tag) (urls : list string) (session_dir : string) :
  omap App.path (App.process_urls w urls session_dir).1
  = (generate_csv_for_products w urls session_dir).1
  /\ (App.process_urls w urls session_dir).2
     = (generate_csv_for_products w urls session_dir).2.
Proof.
  revert w. induction urls as [|u urls IH]; intros w; [split; reflexivity |].
  rewrite process_urls_step, batch_step. cbv zeta. cbn [fst snd].
  destruct (process_url_cases w u session_dir) as [Ew Hentry]. cbv zeta in Ew, Hentry.
  rewrite Ew. destruct (IH (generate_csv_from_url w u session_dir).2) as [IH1 IH2].
  split; [| exact IH2]. rewrite omap_cons.
  destruct Hentry as [[t [Hrun ->]] | [Hfail ->]].
  - rewrite Hrun. cbn [App.path entry_of app]. rewrite IH1. reflexivity.
  - cbn [App.failed_entry App.path]. rewrite IH1.
    destruct (generate_csv_from_url w u session_dir).1 as [|[p|]];
      try reflexivity.
    exfalso. exact (Hfail p eq_refl).
Qed.

End IndexFacts.

(** The loop of [index] gives one entry for each URL, in order, with
    the URL in it.  A success entry has the path the pipeline returned,
    which is the session directory joined with the file name, the file
    name "amazon_reviews_", a number and ".csv", and no error; the file
    is on the disk when the loop ends.  A failure entry has no file name,
    no path, and the error "Pipeline returned None".  The paths of the
    success entries, and the world left, are those of the batch function
    on the same URLs. *)
Theorem index_one_entry_per_url {tag : Type} `{Soup tag} `{Vader}
    (w : World tag) (urls : list string) (session_dir : string) :
  let loop := App.process_urls w urls session_dir in
  App.url <$> loop.1 = urls
  /\ Forall (fun r =>
       match App.result_status r with
       | App.success =>
           exists t,
             App.filename r = Some (csv_name t)
             /\ App.path r = Some (path_join session_dir (csv_name t))
             /\ App.error r = None
             /\ is_Some (files loop.2 !! path_join session_dir (csv_name t))
       | App.failed => r = App.failed_entry (App.url r)
       end) loop.1
  /\ omap App.path loop.1 = (generate_csv_for_products w urls session_dir).1
  /\ loop.2 = (generate_csv_for_products w urls session_dir).2.
Proof.
  cbv zeta. split; [| split; [| apply process_urls_batch]].
  - revert w. induction urls as [|u urls IH]; intros w; [reflexivity |].
    rewrite process_urls_step. cbv zeta. cbn [fst]. csimpl. rewrite IH. f_equal.
    destruct (process_url_cases w u session_dir) as [_ [[t [_ ->]] | [_ ->]]];
      reflexivity.
  - assert (forall (wf w0 : World tag),
              Forall (fun p => is_Some (files wf !! p))
                (omap App.path (App.process_urls w0 urls session_dir).1) ->
              Forall (fun r =>
                match App.result_status r with
                | App.success =>
                    exists t,
                      App.filename r = Some (csv_name t)
                      /\ App.path r = Some (path_join session_dir (csv_name t))
                      /\ App.error r = None
                      /\ is_Some (files wf !! path_join session_dir (csv_name t))
                | App.failed => r = App.failed_entry (App.url r)
                end) (App.process_urls w0 urls session_dir).1) as Hgen.
    { intros wf. induction urls as [|u urls IH]; intros w0 Hwritten; [constructor |].
      rewrite process_urls_step in Hwritten |- *. cbv zeta in Hwritten |- *.
      cbn [fst] in Hwritten |- *. rewrite omap_cons in Hwritten.
      destruct (process_url_cases w0 u session_dir) as [_ [[t [_ E]] | [_ E]]];
        rewrite E in Hwritten |- *; cbn [App.path App.failed_entry] in Hwritten.
      - apply Forall_cons_1 in Hwritten as [Hp Hrest].
        constructor; [| apply IH; exact Hrest].
        cbn [App.result_status]. exists t. auto.
      - constructor; [reflexivity | apply IH; exact Hwritten]. }
    apply Hgen. destruct (process_urls_batch w urls session_dir) as [-> ->].
    apply batch_paths_written.
Qed.

(** ** Two runs in the same second *)

Lemma run_success_inv {tag : Type} `{Soup tag} `{Vader}
    (w w' : World tag) (product_url output_dir path : string) :
  generate_csv_from_url w product_url output_dir = (Return (Some path), w') ->
  exists product_data,
    scrape_product (get w) product_url = Some product_data
    /\ path = path_join output_dir (csv_name (seconds w (ticks w' - 1)))
    /\ seconds w' = seconds w
    /\ get w' = get w
    /\ files w' = <[path := (rows_of product_data w).1]> (files w).
Proof.
  pose proof (run_cases w product_url output_dir) as Hcases.
  destruct (scrape_product (get w) product_url) as [pd|];
    [| rewrite Hcases; discriminate].
  cbv zeta in Hcases. destruct Hcases as [_ ->].
  destruct (writable w _); [| discriminate].
  intros [= <- <-]. exists pd.
  cbn [write_file tick after_rows ticks seconds get files].
  rewrite Nat.sub_1_r. cbn [Nat.pred]. repeat split.
Qed.

(** The file name carries the clock to the second only.  When two runs
    into the same directory, one after the other, both return a path and
    their last readings of the clock show the same second, they return
    the same path, and the file holds the table of the second run: the
    table of the first is gone. *)
Theorem same_second_overwrites {tag : Type} `{Soup tag} `{Vader}
    (w w1 w2 : World tag) (url1 url2 output_dir path1 path2 : string) :
  generate_csv_from_url w url1 output_dir = (Return (Some path1), w1) ->
  generate_csv_from_url w1 url2 output_dir = (Return (Some path2), w2) ->
  seconds w (ticks w1 - 1) = seconds w (ticks w2 - 1) ->
  path1 = path2
  /\ exists product_data,
       scrape_product (get w) url2 = Some product_data
       /\ files w2 !! path1 = Some (rows_of product_data w1).1.
Proof.
  intros Hrun1 Hrun2 Hsame.
  apply run_success_inv in Hrun1. apply run_success_inv in Hrun2.
  destruct Hrun1 as [pd1 [_ [Hp1 [Hsec [Hget _]]]]].
  destruct Hrun2 as [pd2 [Hscrape [Hp2 [_ [_ Hfiles]]]]].
  rewrite Hsec in Hp2. rewrite Hget in Hscrape.
  assert (path1 = path2) as <- by congruence.
  split; [reflexivity |]. exists pd2. split; [exact Hscrape |].
  rewrite Hfiles. apply lookup_insert_eq.
Qed.

(** A world whose clock stands still. *)
Definition stopped_world : World Dom.node :=
  {| get := Fixture.web;
     entropy := fun n => Z.of_nat n;
     drawn := 0;
     calendar := fun _ => "2024-03-01";
     seconds := fun _ => 1709280000%Z;
     ticks := 0;
     writable := fun _ => true;
     files := ∅ |}.

Lemma same_second_overwrites_witness :
  let run1 := generate_csv_from_url stopped_world "https://shop.example/bottle" "out" in
  let run2 := generate_csv_from_url run1.2 "https://shop.example/ten" "out" in
  run1.1 = Return (Some "out/amazon_reviews_1709280000.csv")
  /\ run2.1 = Return (Some "out/amazon_reviews_1709280000.csv")
  /\ length <$> (files run1.2 !! "out/amazon_reviews_1709280000.csv") = Some 2
  /\ length <$> (files run2.2 !! "out/amazon_reviews_1709280000.csv") = Some 1
  /\ "out/amazon_reviews_1709280000.csv" = "out/amazon_reviews_1709280000.csv"
  /\ exists product_data,
       scrape_product Fixture.web "https://shop.example/ten" = Some product_data
       /\ files run2.2 !! "out/amazon_reviews_1709280000.csv"
          = Some (rows_of product_data run1.2).1.
Proof.
  cbv zeta.
  split; [vm_compute; reflexivity |]. split; [vm_compute; reflexivity |].
  split; [vm_compute; reflexivity |]. split; [vm_compute; reflexivity |].
  apply (same_second_overwrites stopped_world
           (generate_csv_from_url stopped_world "https://shop.example/bottle" "out").2
           (generate_csv_from_url
              (generate_csv_from_url stopped_world "https://shop.example/bottle" "out").2
              "https://shop.example/ten" "out").2
           "https://shop.example/bottle" "https://shop.example/ten" "out").
  - vm_compute. reflexivity.
  - vm_compute. reflexivity.
  - reflexivity.
Defined.
